(** * broadlink/remote.py: universal remotes

    A shallow embedding of the classes of [broadlink/remote.py] (rmmini,
    rmpro, rmminib, rm4mini, rm4pro, rm, rm4) and of the Python built-ins
    they rely on (bytes slicing and indexing, [struct.pack]/[struct.unpack],
    [bytes.split], [bytes.decode], float arithmetic), followed by the
    properties of the packet framing, the response parsers, the class
    hierarchy and the operations.

    [device.send_packet], [device.decrypt] and [exceptions.check_error] live
    in modules that are not part of this file; they are taken as parameters
    (record [Externals]). *)

From Stdlib Require Import String Ascii.
From Stdlib Require Import ZArith List Bool Lia.
From Stdlib Require Import Strings.Byte.
From Stdlib Require Import PrimFloat Uint63.
Import ListNotations.

Set Warnings "-inexact-float".
Open Scope Z_scope.

(** ** Bytes *)

Definition bytes := list byte.

Definition Z_of_byte (b : byte) : Z := Z.of_N (Byte.to_N b).

(** The low eight bits of [z], as a byte. *)
Definition byte_of_Z (z : Z) : byte :=
  match Byte.of_N (Z.to_N (Z.land z 255)) with
  | Some b => b
  | None => x00
  end.

(** Value of a byte sequence read as a little-endian unsigned integer. *)
Fixpoint le_uint (bs : bytes) : Z :=
  match bs with
  | [] => 0
  | b :: r => Z_of_byte b + 256 * le_uint r
  end.

(** ** Exceptions and results *)

Inductive Exn : Type :=
| AttributeError        (* attribute lookup found nothing along the MRO *)
| IndexError            (* bytes index out of range *)
| KeyError              (* dict key missing *)
| struct_error          (* struct.error: value out of range, wrong buffer size *)
| UnicodeDecodeError    (* bytes.decode() on a malformed sequence *)
| External (code : Z)   (* whatever send_packet, decrypt or check_error raise *)
| UnsupportedOperation. (* named by the documentation; remote.py never raises it *)

Inductive result (A : Type) : Type :=
| Ok (a : A)
| Raise (e : Exn).
Arguments Ok {A} a.
Arguments Raise {A} e.

(** ** Python slicing and indexing, for the non-negative bounds the module uses *)

(** [l[i:]] *)
Definition slice_from {A} (i : Z) (l : list A) : list A := skipn (Z.to_nat i) l.

(** [l[:j]] *)
Definition slice_to {A} (j : Z) (l : list A) : list A := firstn (Z.to_nat j) l.

(** [l[i:j]]: the elements at the indices k with i <= k < j that exist. *)
Definition slice {A} (i j : Z) (l : list A) : list A :=
  firstn (Z.to_nat j - Z.to_nat i)%nat (skipn (Z.to_nat i) l).

(** [l[i]] *)
Definition index {A} (l : list A) (i : Z) : result A :=
  match nth_error l (Z.to_nat i) with
  | Some a => Ok a
  | None => Raise IndexError
  end.

(** ** The [struct] formats used by the module *)

Module struct.

(** Little-endian bytes of [v], [n] of them. *)
Fixpoint le_bytes (n : nat) (v : Z) : bytes :=
  match n with
  | O => []
  | S k => byte_of_Z v :: le_bytes k (Z.shiftr v 8)
  end.

Definition in_range (v : Z) (bits : Z) : bool :=
  (0 <=? v) && (v <? 2 ^ bits).

(** [struct.pack("<I", v)] *)
Definition pack_I (v : Z) : result bytes :=
  if in_range v 32 then Ok (le_bytes 4 v) else Raise struct_error.

(** [struct.pack("<HI", h, v)] *)
Definition pack_HI (h v : Z) : result bytes :=
  if in_range h 16 && in_range v 32
  then Ok (le_bytes 2 h ++ le_bytes 4 v)
  else Raise struct_error.

(** [struct.unpack("<H", b)[0]] *)
Definition unpack_H (b : bytes) : result Z :=
  match b with
  | [b0; b1] => Ok (Z.lor (Z_of_byte b0) (Z.shiftl (Z_of_byte b1) 8))
  | _ => Raise struct_error
  end.

(** A byte read as a signed char. *)
Definition signed (b : byte) : Z :=
  if Z_of_byte b <? 128 then Z_of_byte b else Z_of_byte b - 256.

(** [struct.unpack("<bb", b)] *)
Definition unpack_bb (b : bytes) : result (Z * Z) :=
  match b with
  | [b0; b1] => Ok (signed b0, signed b1)
  | _ => Raise struct_error
  end.

End struct.

(** ** Calls into the device: a log of the packets handed over, and failure *)

(** One call [send_packet(command, payload)]. *)
Definition packet : Type := Z * bytes.

(** What the module receives from the outside.  The answer of
    [send_packet] may depend on every packet handed over before. *)
Record Externals : Type := {
  send_packet : list packet -> Z -> bytes -> result bytes;
  decrypt : bytes -> result bytes;
  check_error : bytes -> result unit
}.

Definition M (A : Type) : Type := list packet -> list packet * result A.

Definition ret {A} (a : A) : M A := fun log => (log, Ok a).

Definition raise {A} (e : Exn) : M A := fun log => (log, Raise e).

Definition bind {A B} (c : M A) (k : A -> M B) : M B :=
  fun log =>
    match c log with
    | (log', Ok a) => k a log'
    | (log', Raise e) => (log', Raise e)
    end.

Definition lift {A} (r : result A) : M A := fun log => (log, r).

Notation "x <- c ;; k" := (bind c (fun x => k))
  (at level 61, c at next level, right associativity).

(** [self.send_packet(command, payload)]: the packet is on the wire whatever
    the device answers. *)
Definition do_send_packet (x : Externals) (command : Z) (payload : bytes) : M bytes :=
  fun log => (log ++ [(command, payload)], send_packet x log command payload).

(** The packets a computation hands over, started on an empty log. *)
Definition sent {A} (c : M A) : list packet := fst (c []).

Definition outcome {A} (c : M A) : result A := snd (c []).

(** ** [bytes.split] on a one-byte separator, and [bytes.decode()] *)

Fixpoint split (sep : byte) (l : bytes) : list bytes :=
  match l with
  | [] => [[]]
  | b :: r =>
      if Byte.eqb b sep then [] :: split sep r
      else match split sep r with
           | h :: t => (b :: h) :: t
           | [] => [[b]]
           end
  end.

(** A Python [str]: its code points. *)
Definition str := list Z.

Definition str_of_string (s : string) : str :=
  map (fun a => Z.of_N (N_of_ascii a)) (list_ascii_of_string s).

Module utf8.

Definition between (lo hi : Z) (b : byte) : bool :=
  (lo <=? Z_of_byte b) && (Z_of_byte b <=? hi).

Definition cont (b : byte) : bool := between 0x80 0xBF b.

Definition low (mask : Z) (b : byte) : Z := Z.land (Z_of_byte b) mask.

(** Second byte of a three-byte sequence: no overlong form, no surrogate. *)
Definition second3 (b0 b1 : byte) : bool :=
  if Byte.eqb b0 xe0 then between 0xA0 0xBF b1
  else if Byte.eqb b0 xed then between 0x80 0x9F b1
  else cont b1.

(** Second byte of a four-byte sequence: no overlong form, at most U+10FFFF. *)
Definition second4 (b0 b1 : byte) : bool :=
  if Byte.eqb b0 xf0 then between 0x90 0xBF b1
  else if Byte.eqb b0 xf4 then between 0x80 0x8F b1
  else cont b1.

Definition push (c : Z) (r : result str) : result str :=
  match r with
  | Ok s => Ok (c :: s)
  | Raise e => Raise e
  end.

(** Strict UTF-8, the default of [bytes.decode()]. *)
Fixpoint decode (bs : bytes) : result str :=
  match bs with
  | [] => Ok []
  | b0 :: r0 =>
      if Z_of_byte b0 <? 0x80 then push (Z_of_byte b0) (decode r0)
      else if between 0xC2 0xDF b0 then
        match r0 with
        | b1 :: r1 =>
            if cont b1
            then push (Z.lor (Z.shiftl (low 0x1F b0) 6) (low 0x3F b1)) (decode r1)
            else Raise UnicodeDecodeError
        | _ => Raise UnicodeDecodeError
        end
      else if between 0xE0 0xEF b0 then
        match r0 with
        | b1 :: b2 :: r2 =>
            if second3 b0 b1 && cont b2
            then push (Z.lor (Z.shiftl (low 0x0F b0) 12)
                         (Z.lor (Z.shiftl (low 0x3F b1) 6) (low 0x3F b2)))
                      (decode r2)
            else Raise UnicodeDecodeError
        | _ => Raise UnicodeDecodeError
        end
      else if between 0xF0 0xF4 b0 then
        match r0 with
        | b1 :: b2 :: b3 :: r3 =>
            if second4 b0 b1 && cont b2 && cont b3
            then push (Z.lor (Z.shiftl (low 0x07 b0) 18)
                         (Z.lor (Z.shiftl (low 0x3F b1) 12)
                            (Z.lor (Z.shiftl (low 0x3F b2) 6) (low 0x3F b3))))
                      (decode r3)
            else Raise UnicodeDecodeError
        | _ => Raise UnicodeDecodeError
        end
      else Raise UnicodeDecodeError
  end.

End utf8.

(** ** Floats: Python's [float] is IEEE 754 binary64, as is [PrimFloat.float] *)

(** [float(z)] for the integers the parsers meet (a byte, signed or not). *)
Definition float_of_int (z : Z) : float :=
  if z <? 0 then PrimFloat.opp (PrimFloat.of_uint63 (Uint63.of_Z (- z)))
  else PrimFloat.of_uint63 (Uint63.of_Z z).

(** [a + b / d] with [a], [b] integers and [d] a float. *)
Definition fixed_point (a b : Z) (d : float) : float :=
  PrimFloat.add (float_of_int a) (PrimFloat.div (float_of_int b) d).

(** ** Values *)

Inductive Atom : Type :=
| AFloat (f : float)
| AStr (s : str)
| ABool (b : bool).

(** A dict literal with string keys, in the order it is written. *)
Definition dict := list (string * Atom).

(** [d[k]] *)
Fixpoint getitem (d : dict) (k : string) : result Atom :=
  match d with
  | [] => Raise KeyError
  | (k', v) :: r => if String.eqb k' k then Ok v else getitem r k
  end.

(** [k in d] *)
Definition has_key (d : dict) (k : string) : bool :=
  existsb (fun kv => String.eqb (fst kv) k) d.

Inductive Value : Type :=
| VNone
| VBytes (b : bytes)
| VBool (b : bool)
| VAtom (a : Atom)
| VDict (d : dict).

(** ** class Features(enum.IntFlag) *)

Module Features.
Definition LEARN_IR_CODE : Z := 1.
Definition SEND_IR_CODE : Z := 2.
Definition LEARN_RF_CODE : Z := 4.
Definition SEND_RF_CODE : Z := 8.
Definition CHECK_TEMPERATURE : Z := 16.
Definition CHECK_HUMIDITY : Z := 32.

Definition all : list Z :=
  [LEARN_IR_CODE; SEND_IR_CODE; LEARN_RF_CODE; SEND_RF_CODE;
   CHECK_TEMPERATURE; CHECK_HUMIDITY].

(** [flag in flags] *)
Definition mem (flag flags : Z) : bool := Z.land flags flag =? flag.
End Features.

(** ** The classes

    A method body takes, as leading arguments, the attributes of [self] it
    uses: the externals for [_send], the bound [self._send] or
    [self.check_sensors] for the others.  Which function these are is decided
    by the class of the instance (section "Attribute lookup" below). *)

Definition Send : Type := Z -> bytes -> M bytes.

Module rmmini.

Definition TYPE : string := "RMMINI".

Definition _send (x : Externals) (command : Z) (data : bytes) : M bytes :=
  header <- lift (struct.pack_I command) ;;
  let packet := header ++ data in
  resp <- do_send_packet x 0x6A packet ;;
  _ <- lift (check_error x (slice 0x22 0x24 resp)) ;;
  payload <- lift (decrypt x (slice_from 0x38 resp)) ;;
  ret (slice_from 0x4 payload).

(** [resp[0x48:].split(b"\x00")[0].decode()] *)
Definition name_of (resp : bytes) : result str :=
  match index (split x00 (slice_from 0x48 resp)) 0 with
  | Ok piece => utf8.decode piece
  | Raise e => Raise e
  end.

(** [bool(resp[0x87])] *)
Definition is_locked_of (resp : bytes) : result bool :=
  match index resp 0x87 with
  | Ok b => Ok (negb (Z_of_byte b =? 0))
  | Raise e => Raise e
  end.

Definition fetch_data (_send : Send) : M dict :=
  resp <- _send 0x1 [] ;;
  name <- lift (name_of resp) ;;
  is_locked <- lift (is_locked_of resp) ;;
  ret [("name"%string, AStr name); ("is_locked"%string, ABool is_locked)].

Definition send_data (_send : Send) (data : bytes) : M unit :=
  _ <- _send 0x2 data ;;
  ret tt.

Definition enter_learning (_send : Send) : M unit :=
  _ <- _send 0x3 [] ;;
  ret tt.

Definition check_data (_send : Send) : M bytes :=
  _send 0x4 [].

Definition supported_features : Z :=
  Z.lor Features.LEARN_IR_CODE Features.SEND_IR_CODE.

End rmmini.

Module rmpro.

Definition TYPE : string := "RMPRO".

(** [temperature[0x0] + temperature[0x1] / 10.0] after
    [struct.unpack("<bb", resp[:0x2])] *)
Definition temperature_of (resp : bytes) : result float :=
  match struct.unpack_bb (slice_to 0x2 resp) with
  | Ok (t0, t1) => Ok (fixed_point t0 t1 10)
  | Raise e => Raise e
  end.

Definition fetch_data (_send : Send) : M dict :=
  resp <- _send 0x1 [] ;;
  temperature <- lift (temperature_of resp) ;;
  name <- lift (rmmini.name_of resp) ;;
  is_locked <- lift (rmmini.is_locked_of resp) ;;
  ret [("temperature"%string, AFloat temperature);
       ("name"%string, AStr name);
       ("is_locked"%string, ABool is_locked)].

Definition sweep_frequency (_send : Send) : M unit :=
  _ <- _send 0x19 [] ;;
  ret tt.

Definition check_frequency (_send : Send) : M bool :=
  resp <- _send 0x1A [] ;;
  b <- lift (index resp 0) ;;
  ret (Z_of_byte b =? 1).

Definition find_rf_packet (_send : Send) : M unit :=
  _ <- _send 0x1B [] ;;
  ret tt.

Definition cancel_sweep_frequency (_send : Send) : M unit :=
  _ <- _send 0x1E [] ;;
  ret tt.

Definition check_sensors (_send : Send) : M dict :=
  resp <- _send 0x1 [] ;;
  temperature <- lift (temperature_of resp) ;;
  ret [("temperature"%string, AFloat temperature)].

Definition check_temperature (check_sensors : M dict) : M Atom :=
  d <- check_sensors ;;
  lift (getitem d "temperature").

Definition supported_features : Z :=
  Z.lor (Z.lor (Z.lor (Z.lor Features.LEARN_IR_CODE Features.SEND_IR_CODE)
                      Features.LEARN_RF_CODE) Features.SEND_RF_CODE)
        Features.CHECK_TEMPERATURE.

End rmpro.

Module rmminib.

Definition TYPE : string := "RMMINIB".

Definition _send (x : Externals) (command : Z) (data : bytes) : M bytes :=
  header <- lift (struct.pack_HI (Z.of_nat (length data) + 4) command) ;;
  let packet := header ++ data in
  resp <- do_send_packet x 0x6A packet ;;
  _ <- lift (check_error x (slice 0x22 0x24 resp)) ;;
  payload <- lift (decrypt x (slice_from 0x38 resp)) ;;
  p_len <- lift (struct.unpack_H (slice_to 0x2 payload)) ;;
  ret (slice 0x6 (p_len + 2) payload).

End rmminib.

Module rm4mini.

Definition TYPE : string := "RM4MINI".

Definition check_sensors (_send : Send) : M dict :=
  resp <- _send 0x24 [] ;;
  temperature <- lift (struct.unpack_bb (slice_to 0x2 resp)) ;;
  r2 <- lift (index resp 0x2) ;;
  r3 <- lift (index resp 0x3) ;;
  ret [("temperature"%string,
        AFloat (fixed_point (fst temperature) (snd temperature) 100));
       ("humidity"%string,
        AFloat (fixed_point (Z_of_byte r2) (Z_of_byte r3) 100))].

Definition check_temperature (check_sensors : M dict) : M Atom :=
  d <- check_sensors ;;
  lift (getitem d "temperature").

Definition check_humidity (check_sensors : M dict) : M Atom :=
  d <- check_sensors ;;
  lift (getitem d "humidity").

Definition supported_features : Z :=
  Z.lor (Z.lor (Z.lor Features.LEARN_IR_CODE Features.SEND_IR_CODE)
               Features.CHECK_TEMPERATURE) Features.CHECK_HUMIDITY.

End rm4mini.

Module rm4pro.

Definition TYPE : string := "RM4PRO".

Definition supported_features : Z :=
  Z.lor (Z.lor (Z.lor (Z.lor (Z.lor Features.LEARN_IR_CODE Features.SEND_IR_CODE)
                             Features.LEARN_RF_CODE) Features.SEND_RF_CODE)
               Features.CHECK_TEMPERATURE) Features.CHECK_HUMIDITY.

End rm4pro.

Module rm.
Definition TYPE : string := "RM2".
End rm.

Module rm4.
Definition TYPE : string := "RM4".
End rm4.

(** ** Attribute lookup: the class hierarchy and its method resolution order *)

Module Cls.

(** The classes of the module and their common root [device]. *)
Inductive t : Type :=
| rmmini | rmpro | rmminib | rm4mini | rm4pro | rm | rm4 | device.

Definition eqb (a b : t) : bool :=
  match a, b with
  | rmmini, rmmini | rmpro, rmpro | rmminib, rmminib | rm4mini, rm4mini
  | rm4pro, rm4pro | rm, rm | rm4, rm4 | device, device => true
  | _, _ => false
  end.

(** The bases in the order of the [class] statement. *)
Definition bases (c : t) : list t :=
  match c with
  | rmmini => [device]
  | rmpro => [rmmini]
  | rmminib => [rmmini]
  | rm4mini => [rmminib]
  | rm4pro => [rm4mini; rmpro]
  | rm => [rmpro]
  | rm4 => [rm4pro]
  | device => []
  end.

(** The remote-control classes, without the root. *)
Definition remotes : list t := [rmmini; rmpro; rmminib; rm4mini; rm4pro; rm; rm4].

End Cls.

(** Python's C3 linearization. *)
Module C3.

Definition mem (c : Cls.t) (l : list Cls.t) : bool := existsb (Cls.eqb c) l.

(** A head is good when it is in the tail of no sequence. *)
Definition good (seqs : list (list Cls.t)) (c : Cls.t) : bool :=
  forallb (fun s => negb (mem c (tl s))) seqs.

Fixpoint candidate (all seqs : list (list Cls.t)) : option Cls.t :=
  match seqs with
  | [] => None
  | [] :: r => candidate all r
  | (c :: _) :: r => if good all c then Some c else candidate all r
  end.

Definition drop (c : Cls.t) (s : list Cls.t) : list Cls.t :=
  match s with
  | h :: r => if Cls.eqb h c then r else s
  | [] => []
  end.

Definition nonempty (s : list Cls.t) : bool :=
  match s with [] => false | _ => true end.

Fixpoint merge (fuel : nat) (seqs : list (list Cls.t)) : option (list Cls.t) :=
  match filter nonempty seqs with
  | [] => Some []
  | live =>
      match fuel with
      | O => None
      | S k =>
          match candidate live live with
          | None => None   (* inconsistent hierarchy: the class statement fails *)
          | Some c =>
              match merge k (map (drop c) live) with
              | Some l => Some (c :: l)
              | None => None
              end
          end
      end
  end.

Fixpoint sequence {A} (l : list (option A)) : option (list A) :=
  match l with
  | [] => Some []
  | Some a :: r => match sequence r with Some l' => Some (a :: l') | None => None end
  | None :: _ => None
  end.

Fixpoint linearize (depth : nat) (c : Cls.t) : option (list Cls.t) :=
  match depth with
  | O => None
  | S d =>
      match sequence (map (linearize d) (Cls.bases c)) with
      | Some ls =>
          let seqs := ls ++ [Cls.bases c] in
          match merge (length (concat seqs)) seqs with
          | Some l => Some (c :: l)
          | None => None
          end
      | None => None
      end
  end.

End C3.

(** [cls.__mro__] (without [object]).  The hierarchy is eight classes deep at
    most. *)
Definition mro (c : Cls.t) : list Cls.t :=
  match C3.linearize 8 c with
  | Some l => l
  | None => []
  end.

(** The first class along the MRO of [c] whose dict has the attribute;
    [attr d] is the entry of the dict of class [d]. *)
Definition lookup {B} (attr : Cls.t -> option B) (c : Cls.t) : option B :=
  let fix go (l : list Cls.t) : option B :=
    match l with
    | [] => None
    | d :: r => match attr d with Some b => Some b | None => go r end
    end
  in go (mro c).

(** *** The dict of each class, attribute by attribute *)

Definition dict__send (d : Cls.t) : option (Externals -> Send) :=
  match d with
  | Cls.rmmini => Some rmmini._send
  | Cls.rmminib => Some rmminib._send
  | _ => None
  end.

Definition dict_check_sensors (d : Cls.t) : option (Send -> M dict) :=
  match d with
  | Cls.rmpro => Some rmpro.check_sensors
  | Cls.rm4mini => Some rm4mini.check_sensors
  | _ => None
  end.

Definition dict_supported_features (d : Cls.t) : option Z :=
  match d with
  | Cls.rmmini => Some rmmini.supported_features
  | Cls.rmpro => Some rmpro.supported_features
  | Cls.rm4mini => Some rm4mini.supported_features
  | Cls.rm4pro => Some rm4pro.supported_features
  | _ => None
  end.

Definition dict_TYPE (d : Cls.t) : option string :=
  match d with
  | Cls.rmmini => Some rmmini.TYPE
  | Cls.rmpro => Some rmpro.TYPE
  | Cls.rmminib => Some rmminib.TYPE
  | Cls.rm4mini => Some rm4mini.TYPE
  | Cls.rm4pro => Some rm4pro.TYPE
  | Cls.rm => Some rm.TYPE
  | Cls.rm4 => Some rm4.TYPE
  | Cls.device => None
  end.

(** [self._send] on an instance of class [c]. *)
Definition self__send (c : Cls.t) (x : Externals) : Send :=
  match lookup dict__send c with
  | Some f => f x
  | None => fun _ _ => raise AttributeError
  end.

(** [self.check_sensors()] on an instance of class [c]. *)
Definition self_check_sensors (c : Cls.t) (x : Externals) : M dict :=
  match lookup dict_check_sensors c with
  | Some f => f (self__send c x)
  | None => raise AttributeError
  end.

(** [self.supported_features] on an instance of class [c]. *)
Definition supported_features (c : Cls.t) : result Z :=
  match lookup dict_supported_features c with
  | Some f => Ok f
  | None => Raise AttributeError
  end.

(** *** The public operations *)

Module Op.
(** A call of a public method, with its argument. *)
Inductive t : Type :=
| fetch_data
| send_data (data : bytes)
| enter_learning
| check_data
| sweep_frequency
| check_frequency
| find_rf_packet
| cancel_sweep_frequency
| check_sensors
| check_temperature
| check_humidity.
End Op.

Definition fmap {A B} (f : A -> B) (c : M A) : M B :=
  a <- c ;; ret (f a).

Definition none (_ : unit) : Value := VNone.

(** The entry of the dict of class [d] for the method called by [o], applied
    to its argument and waiting for the class of the instance. *)
Definition dict_method (o : Op.t) (d : Cls.t) : option (Cls.t -> Externals -> M Value) :=
  match d, o with
  | Cls.rmmini, Op.fetch_data =>
      Some (fun c x => fmap VDict (rmmini.fetch_data (self__send c x)))
  | Cls.rmmini, Op.send_data data =>
      Some (fun c x => fmap none (rmmini.send_data (self__send c x) data))
  | Cls.rmmini, Op.enter_learning =>
      Some (fun c x => fmap none (rmmini.enter_learning (self__send c x)))
  | Cls.rmmini, Op.check_data =>
      Some (fun c x => fmap VBytes (rmmini.check_data (self__send c x)))
  | Cls.rmpro, Op.fetch_data =>
      Some (fun c x => fmap VDict (rmpro.fetch_data (self__send c x)))
  | Cls.rmpro, Op.sweep_frequency =>
      Some (fun c x => fmap none (rmpro.sweep_frequency (self__send c x)))
  | Cls.rmpro, Op.check_frequency =>
      Some (fun c x => fmap VBool (rmpro.check_frequency (self__send c x)))
  | Cls.rmpro, Op.find_rf_packet =>
      Some (fun c x => fmap none (rmpro.find_rf_packet (self__send c x)))
  | Cls.rmpro, Op.cancel_sweep_frequency =>
      Some (fun c x => fmap none (rmpro.cancel_sweep_frequency (self__send c x)))
  | Cls.rmpro, Op.check_sensors =>
      Some (fun c x => fmap VDict (rmpro.check_sensors (self__send c x)))
  | Cls.rmpro, Op.check_temperature =>
      Some (fun c x => fmap VAtom (rmpro.check_temperature (self_check_sensors c x)))
  | Cls.rm4mini, Op.check_sensors =>
      Some (fun c x => fmap VDict (rm4mini.check_sensors (self__send c x)))
  | Cls.rm4mini, Op.check_temperature =>
      Some (fun c x => fmap VAtom (rm4mini.check_temperature (self_check_sensors c x)))
  | Cls.rm4mini, Op.check_humidity =>
      Some (fun c x => fmap VAtom (rm4mini.check_humidity (self_check_sensors c x)))
  | _, _ => None
  end.

(** [instance.method(args)] on an instance of class [c]: the method is looked
    up along the MRO of [c]; when no class has it the attribute access raises
    and nothing else happens. *)
Definition call (c : Cls.t) (x : Externals) (o : Op.t) : M Value :=
  match lookup (dict_method o) c with
  | Some f => f c x
  | None => raise AttributeError
  end.

(** ** What the documentation says, as definitions to compare the code with *)

Module Documented.

(** The name field: from offset 0x44 up to the first NUL, decoded. *)
Definition name_of (payload : bytes) : result str :=
  match split x00 (slice_from 0x44 payload) with
  | piece :: _ => utf8.decode piece
  | [] => Ok []
  end.

(** The lock field: the byte at offset 0x83, non-zero for true. *)
Definition is_locked_of (payload : bytes) : result bool :=
  match index payload 0x83 with
  | Ok b => Ok (negb (Z_of_byte b =? 0))
  | Raise e => Raise e
  end.

(** The feature flag an operation stands for. *)
Definition feature_of (o : Op.t) : option Z :=
  match o with
  | Op.fetch_data => None
  | Op.send_data _ => Some Features.SEND_IR_CODE
  | Op.enter_learning | Op.check_data => Some Features.LEARN_IR_CODE
  | Op.sweep_frequency | Op.check_frequency | Op.find_rf_packet
  | Op.cancel_sweep_frequency => Some Features.LEARN_RF_CODE
  | Op.check_sensors | Op.check_temperature => Some Features.CHECK_TEMPERATURE
  | Op.check_humidity => Some Features.CHECK_HUMIDITY
  end.

(** Generation B: the RM4 line. *)
Definition generation_B (c : Cls.t) : bool :=
  match c with
  | Cls.rm4mini | Cls.rm4pro | Cls.rm4 => true
  | _ => false
  end.

(** The opcode of an operation. *)
Definition opcode (c : Cls.t) (o : Op.t) : Z :=
  match o with
  | Op.fetch_data => 0x01
  | Op.send_data _ => 0x02
  | Op.enter_learning => 0x03
  | Op.check_data => 0x04
  | Op.sweep_frequency => 0x19
  | Op.check_frequency => 0x1A
  | Op.find_rf_packet => 0x1B
  | Op.cancel_sweep_frequency => 0x1E
  | Op.check_sensors | Op.check_temperature | Op.check_humidity =>
      if generation_B c then 0x24 else 0x01
  end.

(** The payload of an operation: the code for send code, nothing otherwise. *)
Definition payload (o : Op.t) : bytes :=
  match o with
  | Op.send_data data => data
  | _ => []
  end.

End Documented.

(** ** Auxiliary notions for the statements *)

(** The externals answer the packet [p], handed over after [log], with the
    decrypted buffer [buf]. *)
Definition delivers (x : Externals) (log : list packet) (p buf : bytes) : Prop :=
  exists resp,
    send_packet x log 0x6A p = Ok resp /\
    check_error x (slice 0x22 0x24 resp) = Ok tt /\
    decrypt x (slice_from 0x38 resp) = Ok buf.

(** [piece] is [region] up to its first NUL byte (all of it when it has none). *)
Definition up_to_nul (region piece : bytes) : Prop :=
  ~ In x00 piece /\ (region = piece \/ exists rest, region = piece ++ x00 :: rest).

(** The method called by [o] exists on instances of [c]. *)
Definition has_method (c : Cls.t) (o : Op.t) : bool :=
  match lookup (dict_method o) c with
  | Some _ => true
  | None => false
  end.


(** *** A device for examples: it answers every packet with the same raw
    response, applies no encryption and takes the status bytes 0,0 for
    success. *)

Definition canned (resp : bytes) : Externals := {|
  send_packet := fun _ _ _ => Ok resp;
  decrypt := fun b => Ok b;
  check_error := fun e => if le_uint e =? 0 then Ok tt else Raise (External (le_uint e))
|}.

(** A raw response with status 0 whose encrypted part is [buf]. *)
Definition raw (buf : bytes) : bytes := repeat x00 (Z.to_nat 0x38) ++ buf.

(** [n] zero bytes. *)
Definition zeros (n : Z) : bytes := repeat x00 (Z.to_nat n).

(** The bytes of b"Living Room". *)
Definition Living_Room : bytes := list_byte_of_string "Living Room".

(** A decrypted legacy status answer of 0x90 bytes that tells the offsets
    apart: "A" at 0x44, "B" at 0x48 and "C" at 0x4C, each followed by NUL,
    the byte 1 at 0x83 and at 0x87, and 0 at 0x8B. *)
Definition status_sample : bytes :=
  zeros 0x44 ++ [x41; x00; x00; x00; x42; x00; x00; x00; x43]
    ++ zeros 0x36 ++ [x01; x00; x00; x00; x01] ++ zeros 0x8.

(** A logical status payload of 0x88 bytes whose name region holds
    b"Living Room" followed by NUL bytes. *)
Definition name_sample : bytes := zeros 0x48 ++ Living_Room ++ zeros 0x35.

(** Decrypted sensor answers carrying the bytes 0x19, 0x02, 0x3C, 0x05 as
    logical payload, under the legacy and under the extended framing. *)
Definition sensors_legacy_sample : bytes :=
  [x00; x00; x00; x00; x19; x02; x3c; x05].

Definition sensors_extended_sample : bytes :=
  [x08; x00; x00; x00; x00; x00; x19; x02; x3c; x05].

(** Decrypted sensor answers carrying the bytes 0xF6, 0xFB, 0xC8, 0x63, all
    from 0x80 up, as logical payload, under the legacy and under the extended
    framing. *)
Definition sensors_legacy_high : bytes :=
  [x00; x00; x00; x00; xf6; xfb; xc8; x63].

Definition sensors_extended_high : bytes :=
  [x08; x00; x00; x00; x00; x00; xf6; xfb; xc8; x63].


(** The integers from -128 to 254. *)
Definition small_ints : list Z := map (fun n => Z.of_nat n - 128) (seq 0 383).

(** Every byte value, in increasing order. *)
Definition all_bytes : list byte :=
  map (fun n => byte_of_Z (Z.of_nat n)) (seq 0 256).

(** [lo <= v <= hi] on floats. *)
Definition float_within (lo hi v : float) : bool :=
  PrimFloat.leb lo v && PrimFloat.leb v hi.

(** A device that hands every frame back as the decrypted answer. *)
Definition echo : Externals := {|
  send_packet := fun _ _ frame => Ok (zeros 0x38 ++ frame);
  decrypt := fun b => Ok b;
  check_error := fun e => if le_uint e =? 0 then Ok tt else Raise (External (le_uint e))
|}.

(** A device that reports the status [code] in the bytes 0x22 and 0x23 of every
    answer. *)
Definition failing (code : Z) : Externals := {|
  send_packet := fun _ _ _ => Ok (zeros 0x22 ++ struct.le_bytes 2 code ++ zeros 0x14);
  decrypt := fun b => Ok b;
  check_error := fun e => if le_uint e =? 0 then Ok tt else Raise (External (le_uint e))
|}.

(** The methods annotated [-> None]. *)
Definition returns_None (o : Op.t) : bool :=
  match o with
  | Op.send_data _ | Op.enter_learning | Op.sweep_frequency
  | Op.find_rf_packet | Op.cancel_sweep_frequency => true
  | _ => false
  end.

(** * Properties *)

(** ** Bytes and integers *)

Lemma Z_of_byte_range (b : byte) : 0 <= Z_of_byte b < 256.
Proof.
  unfold Z_of_byte. pose proof (Byte.to_N_bounded b). lia.
Qed.

Lemma Z_of_byte_of_Z (z : Z) : Z_of_byte (byte_of_Z z) = z mod 256.
Proof.
  unfold byte_of_Z, Z_of_byte.
  change 255 with (Z.ones 8). rewrite Z.land_ones by lia.
  change (2 ^ 8) with 256.
  pose proof (Z.mod_pos_bound z 256 ltac:(lia)) as Hm.
  destruct (Byte.of_N (Z.to_N (z mod 256))) as [b|] eqn:E.
  - apply Byte.to_of_N in E. rewrite E. lia.
  - apply Byte.of_N_None_iff in E. lia.
Qed.

Lemma Z_of_byte_inj (a b : byte) : Z_of_byte a = Z_of_byte b -> a = b.
Proof.
  unfold Z_of_byte. intros H. apply N2Z.inj in H.
  pose proof (Byte.of_to_N a) as Ha. rewrite H, Byte.of_to_N in Ha.
  congruence.
Qed.

Lemma byte_eqb_eq (a b : byte) : Byte.eqb a b = true <-> a = b.
Proof.
  split; [apply Byte.byte_dec_bl | apply Byte.byte_dec_lb].
Qed.

Lemma length_le_bytes (n : nat) (v : Z) : length (struct.le_bytes n v) = n.
Proof.
  revert v. induction n as [|n IH]; intros v; simpl; [reflexivity | now rewrite IH].
Qed.

Lemma le_uint_le_bytes (n : nat) :
  forall v, 0 <= v < 2 ^ (8 * Z.of_nat n) -> le_uint (struct.le_bytes n v) = v.
Proof.
  induction n as [|n IH]; intros v Hv.
  - simpl in *. lia.
  - cbn [struct.le_bytes le_uint].
    rewrite Z_of_byte_of_Z, Z.shiftr_div_pow2 by lia.
    change (2 ^ 8) with 256.
    replace (8 * Z.of_nat (S n)) with (8 + 8 * Z.of_nat n) in Hv by lia.
    rewrite Z.pow_add_r in Hv by lia. change (2 ^ 8) with 256 in Hv.
    rewrite IH.
    + pose proof (Z.div_mod v 256 ltac:(lia)). lia.
    + split; [apply Z.div_pos; lia | apply Z.div_lt_upper_bound; lia].
Qed.

Lemma le_uint_range (bs : bytes) : 0 <= le_uint bs < 2 ^ (8 * Z.of_nat (length bs)).
Proof.
  induction bs as [|b r IH].
  - simpl. lia.
  - cbn [le_uint length].
    replace (8 * Z.of_nat (S (length r))) with (8 + 8 * Z.of_nat (length r)) by lia.
    rewrite Z.pow_add_r by lia. change (2 ^ 8) with 256.
    pose proof (Z_of_byte_range b). lia.
Qed.

Lemma lor_shiftl_8 (a b : Z) : 0 <= a < 256 -> Z.lor a (Z.shiftl b 8) = a + 256 * b.
Proof.
  intros Ha.
  assert (Hdisj : Z.land a (Z.shiftl b 8) = 0).
  { apply Z.bits_inj'. intros n Hn.
    rewrite Z.land_spec, Z.bits_0.
    destruct (Z.ltb_spec n 8) as [Hlt | Hge].
    - rewrite Z.shiftl_spec_low by lia. apply andb_false_r.
    - rewrite <- (Z.mod_small a (2 ^ 8)) by (change (2 ^ 8) with 256; lia).
      rewrite Z.mod_pow2_bits_high by lia. reflexivity. }
  rewrite <- Z.lxor_lor by exact Hdisj.
  rewrite <- Z.add_nocarry_lxor by exact Hdisj.
  rewrite Z.shiftl_mul_pow2 by lia. change (2 ^ 8) with 256. lia.
Qed.

(** [struct.unpack("<H", ...)] reads the little-endian value of its two bytes. *)
Lemma unpack_H_le (b0 b1 : byte) : struct.unpack_H [b0; b1] = Ok (le_uint [b0; b1]).
Proof.
  unfold struct.unpack_H. cbn [le_uint].
  rewrite lor_shiftl_8 by apply Z_of_byte_range.
  f_equal. lia.
Qed.

Lemma in_range_true (v bits : Z) :
  struct.in_range v bits = true <-> 0 <= v < 2 ^ bits.
Proof.
  unfold struct.in_range. rewrite andb_true_iff, Z.leb_le, Z.ltb_lt. tauto.
Qed.

Lemma pack_I_ok (v : Z) :
  0 <= v < 2 ^ 32 -> struct.pack_I v = Ok (struct.le_bytes 4 v).
Proof.
  intros H. unfold struct.pack_I.
  now rewrite (proj2 (in_range_true v 32) H).
Qed.

Lemma pack_HI_ok (h v : Z) :
  0 <= h < 2 ^ 16 -> 0 <= v < 2 ^ 32 ->
  struct.pack_HI h v = Ok (struct.le_bytes 2 h ++ struct.le_bytes 4 v).
Proof.
  intros Hh Hv. unfold struct.pack_HI.
  now rewrite (proj2 (in_range_true h 16) Hh), (proj2 (in_range_true v 32) Hv).
Qed.

Lemma pack_HI_overflow (h v : Z) :
  2 ^ 16 <= h -> struct.pack_HI h v = Raise struct_error.
Proof.
  intros Hh. unfold struct.pack_HI.
  destruct (struct.in_range h 16) eqn:E; [|reflexivity].
  apply in_range_true in E. lia.
Qed.

(** ** Slices *)

Lemma nth_error_slice {A} (i j : Z) (l : list A) (k : nat) :
  0 <= i ->
  nth_error (slice i j l) k =
    if i + Z.of_nat k <? j then nth_error l (Z.to_nat i + k) else None.
Proof.
  intros Hi. unfold slice.
  destruct (Z.ltb_spec (i + Z.of_nat k) j) as [Hlt | Hge].
  - rewrite nth_error_firstn.
    destruct (Nat.ltb_spec k (Z.to_nat j - Z.to_nat i)) as [_ | Hk]; [|lia].
    now rewrite nth_error_skipn.
  - rewrite nth_error_firstn.
    destruct (Nat.ltb_spec k (Z.to_nat j - Z.to_nat i)) as [Hk | _]; [lia | reflexivity].
Qed.

Lemma slice_beyond {A} (i j : Z) (l : list A) :
  Z.of_nat (length l) <= j -> slice i j l = slice_from i l.
Proof.
  intros Hj. unfold slice, slice_from.
  apply firstn_all2. rewrite length_skipn. lia.
Qed.

Lemma slice_from_short {A} (i : Z) (l : list A) :
  Z.of_nat (length l) <= i -> slice_from i l = [].
Proof.
  intros H. unfold slice_from. apply skipn_all2. lia.
Qed.

Lemma slice_short {A} (i j : Z) (l : list A) :
  Z.of_nat (length l) <= i -> slice i j l = [].
Proof.
  intros H. unfold slice. rewrite skipn_all2 by lia. apply firstn_nil.
Qed.

Lemma slice_to_2 (l : bytes) :
  slice_to 0x2 l =
    match l with
    | b0 :: b1 :: _ => [b0; b1]
    | _ => l
    end.
Proof.
  unfold slice_to. change (Z.to_nat 0x2) with 2%nat.
  destruct l as [|b0 [|b1 r]]; reflexivity.
Qed.

(** ** One run of [_send] *)

Ltac run_send :=
  unfold rmmini._send, rmminib._send, bind, lift, ret, do_send_packet; cbn beta iota.

Lemma rmmini_send_run x command data log hdr :
  struct.pack_I command = Ok hdr ->
  rmmini._send x command data log =
    (log ++ [(0x6A, hdr ++ data)],
     match send_packet x log 0x6A (hdr ++ data) with
     | Ok resp =>
         match check_error x (slice 0x22 0x24 resp) with
         | Ok _ =>
             match decrypt x (slice_from 0x38 resp) with
             | Ok payload => Ok (slice_from 0x4 payload)
             | Raise e => Raise e
             end
         | Raise e => Raise e
         end
     | Raise e => Raise e
     end).
Proof.
  intros Hp. run_send. rewrite Hp.
  destruct (send_packet x log 0x6A (hdr ++ data)) as [resp|e]; [|reflexivity].
  destruct (check_error x (slice 0x22 0x24 resp)) as [u|e]; [|reflexivity].
  destruct (decrypt x (slice_from 0x38 resp)) as [payload|e]; reflexivity.
Qed.

Lemma rmminib_send_run x command data log hdr :
  struct.pack_HI (Z.of_nat (length data) + 4) command = Ok hdr ->
  rmminib._send x command data log =
    (log ++ [(0x6A, hdr ++ data)],
     match send_packet x log 0x6A (hdr ++ data) with
     | Ok resp =>
         match check_error x (slice 0x22 0x24 resp) with
         | Ok _ =>
             match decrypt x (slice_from 0x38 resp) with
             | Ok payload =>
                 match struct.unpack_H (slice_to 0x2 payload) with
                 | Ok p_len => Ok (slice 0x6 (p_len + 2) payload)
                 | Raise e => Raise e
                 end
             | Raise e => Raise e
             end
         | Raise e => Raise e
         end
     | Raise e => Raise e
     end).
Proof.
  intros Hp. run_send. rewrite Hp.
  destruct (send_packet x log 0x6A (hdr ++ data)) as [resp|e]; [|reflexivity].
  destruct (check_error x (slice 0x22 0x24 resp)) as [u|e]; [|reflexivity].
  destruct (decrypt x (slice_from 0x38 resp)) as [payload|e]; [|reflexivity].
  destruct (struct.unpack_H (slice_to 0x2 payload)) as [p_len|e]; reflexivity.
Qed.

(** A header that cannot be packed stops [_send] before anything is handed
    over. *)
Lemma rmmini_send_unpacked x command data log e :
  struct.pack_I command = Raise e ->
  rmmini._send x command data log = (log, Raise e).
Proof. intros Hp. run_send. now rewrite Hp. Qed.

Lemma rmminib_send_unpacked x command data log e :
  struct.pack_HI (Z.of_nat (length data) + 4) command = Raise e ->
  rmminib._send x command data log = (log, Raise e).
Proof. intros Hp. run_send. now rewrite Hp. Qed.

Lemma rmmini_send_delivers x command data log hdr buf :
  struct.pack_I command = Ok hdr ->
  delivers x log (hdr ++ data) buf ->
  rmmini._send x command data log =
    (log ++ [(0x6A, hdr ++ data)], Ok (skipn 4 buf)).
Proof.
  intros Hp (resp & Hs & Hc & Hd).
  rewrite (rmmini_send_run _ _ _ _ _ Hp), Hs, Hc, Hd. reflexivity.
Qed.

Lemma rmminib_send_delivers x command data log hdr buf :
  struct.pack_HI (Z.of_nat (length data) + 4) command = Ok hdr ->
  delivers x log (hdr ++ data) buf ->
  rmminib._send x command data log =
    (log ++ [(0x6A, hdr ++ data)],
     match buf with
     | b0 :: b1 :: _ => Ok (slice 0x6 (le_uint [b0; b1] + 2) buf)
     | _ => Raise struct_error
     end).
Proof.
  intros Hp (resp & Hs & Hc & Hd).
  rewrite (rmminib_send_run _ _ _ _ _ Hp), Hs, Hc, Hd, slice_to_2.
  destruct buf as [|b0 [|b1 r]]; try reflexivity.
  now rewrite unpack_H_le.
Qed.

(** ** The frame codec *)

(** C1, as stated, fails: a code of 65532 bytes has no extended frame.
    [struct.pack] refuses the length 65536 and [_send] raises before anything
    is handed over. *)
Lemma extended_frame_of_65532_bytes :
  sent (rmminib._send (canned (raw [])) 0x2 (zeros 65532)) = [] /\
  outcome (rmminib._send (canned (raw [])) 0x2 (zeros 65532)) = Raise struct_error.
Proof.
  unfold sent, outcome.
  rewrite (rmminib_send_unpacked _ _ _ _ struct_error).
  - split; reflexivity.
  - apply pack_HI_overflow. unfold zeros. rewrite repeat_length. vm_compute. discriminate.
Qed.

(** C1 (amended): for every 32-bit opcode, the legacy [_send] hands over the
    4-byte little-endian opcode followed directly by the payload, for every
    payload; the extended [_send] hands over a 2-byte little-endian length
    equal to len(payload)+4, the 4-byte little-endian opcode and the payload,
    for every payload of at most 65531 bytes.  On the way back the legacy
    logical payload is the decrypted buffer from offset 4 to its end, and the
    extended logical payload, for a buffer that has its two length bytes, is
    made of the bytes at the offsets 6 <= i < p_len + 2 that exist, p_len
    being the little-endian value of the bytes 0 and 1. *)
Theorem frame_codec_layout :
  forall (x : Externals) (command : Z) (data : bytes) (log : list packet),
    0 <= command < 2 ^ 32 ->
    (exists opf,
        length opf = 4%nat /\ le_uint opf = command /\
        fst (rmmini._send x command data log) = log ++ [(0x6A, opf ++ data)] /\
        forall buf, delivers x log (opf ++ data) buf ->
          snd (rmmini._send x command data log) = Ok (skipn 4 buf))
    /\
    (Z.of_nat (length data) + 4 < 2 ^ 16 ->
     exists lenf opf,
        length lenf = 2%nat /\ le_uint lenf = Z.of_nat (length data) + 4 /\
        length opf = 4%nat /\ le_uint opf = command /\
        fst (rmminib._send x command data log)
          = log ++ [(0x6A, lenf ++ opf ++ data)] /\
        forall buf b0 b1 r,
          delivers x log (lenf ++ opf ++ data) buf ->
          buf = b0 :: b1 :: r ->
          exists out,
            snd (rmminib._send x command data log) = Ok out /\
            forall k : nat,
              nth_error out k =
                if 6 + Z.of_nat k <? (Z_of_byte b0 + 256 * Z_of_byte b1) + 2
                then nth_error buf (6 + k) else None).
Proof.
  intros x command data log Hc. split.
  - exists (struct.le_bytes 4 command).
    pose proof (pack_I_ok command Hc) as Hp.
    repeat split.
    + apply le_uint_le_bytes. exact Hc.
    + now rewrite (rmmini_send_run _ _ _ _ _ Hp).
    + intros buf Hd. now rewrite (rmmini_send_delivers _ _ _ _ _ _ Hp Hd).
  - intros Hlen.
    exists (struct.le_bytes 2 (Z.of_nat (length data) + 4)), (struct.le_bytes 4 command).
    assert (Hp : struct.pack_HI (Z.of_nat (length data) + 4) command
                 = Ok ((struct.le_bytes 2 (Z.of_nat (length data) + 4)
                        ++ struct.le_bytes 4 command))).
    { apply pack_HI_ok; [lia | exact Hc]. }
    repeat split.
    + apply le_uint_le_bytes. change (2 ^ (8 * Z.of_nat 2)) with (2 ^ 16). lia.
    + apply le_uint_le_bytes. exact Hc.
    + rewrite (rmminib_send_run _ _ _ _ _ Hp). cbn [fst]. now rewrite <- app_assoc.
    + intros buf b0 b1 r Hd ->.
      rewrite app_assoc in Hd.
      rewrite (rmminib_send_delivers _ _ _ _ _ _ Hp Hd). cbn [snd].
      eexists. split; [reflexivity|].
      intros k. rewrite nth_error_slice by lia.
      cbn [le_uint]. replace (Z_of_byte b1 + 256 * 0) with (Z_of_byte b1) by lia.
      reflexivity.
Qed.

Lemma frame_codec_layout_witness :
  0 <= 0x2 < 2 ^ 32 /\
  exists opf,
    length opf = 4%nat /\ le_uint opf = 0x2 /\
    fst (rmmini._send (canned (raw [])) 0x2 [x26; x00] [])
      = [] ++ [(0x6A, opf ++ [x26; x00])] /\
    forall buf, delivers (canned (raw [])) [] (opf ++ [x26; x00]) buf ->
      snd (rmmini._send (canned (raw [])) 0x2 [x26; x00] []) = Ok (skipn 4 buf).
Proof.
  assert (H : 0 <= 0x2 < 2 ^ 32) by lia.
  split; [exact H|].
  exact (proj1 (frame_codec_layout (canned (raw [])) 0x2 [x26; x00] [] H)).
Defined.

(** C10: the extended [_send] packs len(payload)+4 into a 16-bit field.  For
    every payload with len(payload)+4 < 2^16 the frame handed over begins
    with the two little-endian bytes of exactly that value; for every longer
    payload [struct.pack] raises, nothing is handed over and no length is
    taken modulo 2^16. *)
Theorem extended_length_field_bound :
  forall (x : Externals) (command : Z) (data : bytes) (log : list packet),
    (0 <= command < 2 ^ 32 ->
     Z.of_nat (length data) + 4 < 2 ^ 16 ->
     exists lo hi rest,
       fst (rmminib._send x command data log) = log ++ [(0x6A, lo :: hi :: rest)] /\
       Z_of_byte lo + 256 * Z_of_byte hi = Z.of_nat (length data) + 4)
    /\
    (2 ^ 16 <= Z.of_nat (length data) + 4 ->
     rmminib._send x command data log = (log, Raise struct_error)).
Proof.
  intros x command data log. split.
  - intros Hc Hlen.
    set (n := Z.of_nat (length data) + 4) in *.
    exists (byte_of_Z n), (byte_of_Z (Z.shiftr n 8)), (struct.le_bytes 4 command ++ data).
    split.
    + rewrite (rmminib_send_run _ _ _ _ _ (pack_HI_ok n command ltac:(lia) Hc)).
      reflexivity.
    + pose proof (le_uint_le_bytes 2 n) as H.
      cbn [struct.le_bytes le_uint] in H. rewrite <- H at 3.
      * lia.
      * change (2 ^ (8 * Z.of_nat 2)) with (2 ^ 16). lia.
  - intros Hlen. apply rmminib_send_unpacked. now apply pack_HI_overflow.
Qed.

Lemma extended_length_field_bound_witness :
  (exists lo hi rest,
     fst (rmminib._send (canned (raw [])) 0x2 [x26; x00] [])
       = [] ++ [(0x6A, lo :: hi :: rest)] /\
     Z_of_byte lo + 256 * Z_of_byte hi = Z.of_nat (length [x26; x00]) + 4)
  /\ rmminib._send (canned (raw [])) 0x2 (zeros 65532) [] = ([], Raise struct_error).
Proof.
  split.
  - apply (proj1 (extended_length_field_bound (canned (raw [])) 0x2 [x26; x00] []));
      [lia | simpl; lia].
  - apply (proj2 (extended_length_field_bound (canned (raw [])) 0x2 (zeros 65532) [])).
    unfold zeros. rewrite repeat_length. vm_compute. discriminate.
Defined.

(** C3, as stated, fails: no buffer makes the legacy decoding fail, and a
    length field that points past the end of the buffer is not an error.
    A 3-byte buffer gives the empty logical payload under both framings, and
    the length field 0xFFFF on an 8-byte buffer gives the two bytes that
    are there. *)
Lemma short_buffers_are_not_rejected :
  outcome (rmmini._send (canned (raw [x01; x02; x03])) 0x1 []) = Ok [] /\
  outcome (rmminib._send (canned (raw [x04; x00; x01])) 0x1 []) = Ok [] /\
  outcome (rmminib._send
             (canned (raw [xff; xff; x01; x00; x00; x00; xaa; xbb])) 0x1 [])
    = Ok [xaa; xbb].
Proof. repeat split; vm_compute; reflexivity. Qed.

(** C3 (amended): the legacy decoding never fails: the logical payload is the
    decrypted buffer without its first four bytes, empty when the buffer has
    at most four.  The extended decoding fails, with [struct.error], exactly
    when the buffer has fewer than two bytes; a buffer of two to five bytes
    gives the empty payload, and when p_len + 2 exceeds the length of the
    buffer the payload is the buffer from offset 6 to its end: the slice is
    cut at the end of the buffer, nothing outside it is read and no error is
    raised. *)
Theorem logical_payload_of_short_buffers :
  forall (x : Externals) (command : Z) (data : bytes) (log : list packet)
         (hdr buf : bytes),
    delivers x log (hdr ++ data) buf ->
    (struct.pack_I command = Ok hdr ->
       snd (rmmini._send x command data log) = Ok (skipn 4 buf) /\
       ((length buf <= 4)%nat -> skipn 4 buf = []))
    /\
    (struct.pack_HI (Z.of_nat (length data) + 4) command = Ok hdr ->
       ((length buf < 2)%nat <->
          snd (rmminib._send x command data log) = Raise struct_error) /\
       ((2 <= length buf < 6)%nat ->
          snd (rmminib._send x command data log) = Ok []) /\
       ((2 <= length buf)%nat ->
          Z.of_nat (length buf) < le_uint (firstn 2 buf) + 2 ->
          snd (rmminib._send x command data log) = Ok (skipn 6 buf))).
Proof.
  intros x command data log hdr buf Hd. split.
  - intros Hp. rewrite (rmmini_send_delivers _ _ _ _ _ _ Hp Hd). split.
    + reflexivity.
    + intros Hlen. apply skipn_all2. exact Hlen.
  - intros Hp. rewrite (rmminib_send_delivers _ _ _ _ _ _ Hp Hd). cbn [snd].
    destruct buf as [|b0 [|b1 r]].
    + repeat split; simpl; intros; try lia; try reflexivity.
    + repeat split; simpl; intros; try lia; try reflexivity.
    + split; [|split].
      * cbn [length]. split; [lia | discriminate].
      * intros Hlen. f_equal. apply slice_short. lia.
      * intros _ Hlen. cbn [firstn] in Hlen. f_equal.
        rewrite slice_beyond by lia. reflexivity.
Qed.

Lemma logical_payload_of_short_buffers_witness :
  snd (rmminib._send
         (canned (raw [xff; xff; x01; x00; x00; x00; xaa; xbb])) 0x1 [] [])
    = Ok (skipn 6 [xff; xff; x01; x00; x00; x00; xaa; xbb]).
Proof.
  refine (proj2 (proj2 (proj2
    (logical_payload_of_short_buffers
       (canned (raw [xff; xff; x01; x00; x00; x00; xaa; xbb])) 0x1 [] []
       [x04; x00; x01; x00; x00; x00]
       [xff; xff; x01; x00; x00; x00; xaa; xbb] _) eq_refl)) _ _).
  - exists (raw [xff; xff; x01; x00; x00; x00; xaa; xbb]).
    repeat split; reflexivity.
  - simpl. lia.
  - vm_compute. reflexivity.
Defined.

(** ** Runs of the monad *)

Lemma bind_ok {A B} (c : M A) (k : A -> M B) log log' a :
  c log = (log', Ok a) -> bind c k log = k a log'.
Proof. intros H. unfold bind. now rewrite H. Qed.

Lemma bind_raise {A B} (c : M A) (k : A -> M B) log log' e :
  c log = (log', Raise e) -> bind c k log = (log', Raise e).
Proof. intros H. unfold bind. now rewrite H. Qed.

Lemma fmap_ok {A B} (f : A -> B) (c : M A) log log' a :
  c log = (log', Ok a) -> fmap f c log = (log', Ok (f a)).
Proof. intros H. unfold fmap. now rewrite (bind_ok _ _ _ _ _ H). Qed.

Lemma lift_bind {A B} (r : result A) (k : A -> M B) log :
  bind (lift r) k log =
    match r with
    | Ok a => k a log
    | Raise e => (log, Raise e)
    end.
Proof. unfold bind, lift. destruct r; reflexivity. Qed.

(** ** [split] and the name field *)

Lemma split_without (sep : byte) (l : bytes) :
  ~ In sep l -> split sep l = [l].
Proof.
  induction l as [|b r IH]; intros Hn; cbn [split]; [reflexivity|].
  destruct (Byte.eqb b sep) eqn:E.
  - apply byte_eqb_eq in E. subst. exfalso. apply Hn. now left.
  - rewrite IH; [reflexivity|]. intros Hin. apply Hn. now right.
Qed.

Lemma split_at_first (sep : byte) (piece rest : bytes) :
  ~ In sep piece ->
  exists others, split sep (piece ++ sep :: rest) = piece :: others.
Proof.
  induction piece as [|b r IH]; intros Hn.
  - cbn [app split]. rewrite (proj2 (byte_eqb_eq sep sep) eq_refl). eauto.
  - cbn [app split].
    destruct (Byte.eqb b sep) eqn:E.
    + apply byte_eqb_eq in E. subst. exfalso. apply Hn. now left.
    + destruct IH as [others Ho]; [intros Hin; apply Hn; now right|].
      rewrite Ho. eauto.
Qed.

Lemma split_up_to_nul (region piece : bytes) :
  up_to_nul region piece -> exists others, split x00 region = piece :: others.
Proof.
  intros [Hn [-> | [rest ->]]].
  - exists []. now apply split_without.
  - now apply split_at_first.
Qed.

(** Every region has its part up to the first NUL. *)
Lemma up_to_nul_total (region : bytes) : exists piece, up_to_nul region piece.
Proof.
  induction region as [|b r [piece [Hn Hp]]].
  - exists []. split; [intros [] | now left].
  - destruct (Byte.byte_eq_dec b x00) as [-> | Hb].
    + exists []. split; [intros [] | right; now exists r].
    + exists (b :: piece). split.
      * intros [H | H]; [now apply Hb | now apply Hn].
      * destruct Hp as [-> | [rest ->]]; [now left | right; now exists rest].
Qed.

Lemma name_of_up_to_nul (resp piece : bytes) :
  up_to_nul (skipn 0x48 resp) piece -> rmmini.name_of resp = utf8.decode piece.
Proof.
  intros H. destruct (split_up_to_nul _ _ H) as [others Ho].
  unfold rmmini.name_of, slice_from. change (Z.to_nat 0x48) with 0x48%nat.
  now rewrite Ho.
Qed.

Lemma is_locked_of_byte (resp : bytes) (b : byte) :
  nth_error resp 0x87 = Some b ->
  rmmini.is_locked_of resp = Ok (negb (Byte.eqb b x00)).
Proof.
  intros H. unfold rmmini.is_locked_of, index.
  change (Z.to_nat 0x87) with 0x87%nat. rewrite H. do 2 f_equal.
  destruct (Byte.eqb b x00) eqn:E.
  - apply byte_eqb_eq in E. now subst.
  - apply Z.eqb_neq. intros Hz. apply Byte.eqb_false in E. apply E.
    apply Z_of_byte_inj. exact Hz.
Qed.

Lemma temperature_of_two (b0 b1 : byte) (r : bytes) :
  rmpro.temperature_of (b0 :: b1 :: r)
  = Ok (float_of_int (struct.signed b0) + float_of_int (struct.signed b1) / 10)%float.
Proof. reflexivity. Qed.

Lemma nth_error_two {A} (l : list A) (n : nat) (a : A) :
  (2 <= n)%nat -> nth_error l n = Some a -> exists b0 b1 r, l = b0 :: b1 :: r.
Proof.
  intros Hn H. destruct l as [|b0 [|b1 r]].
  - destruct n; discriminate.
  - destruct n as [|[|n]]; try lia. discriminate.
  - eauto.
Qed.

(** The status parsers on a logical payload [resp], whatever [_send] is. *)
Lemma rmmini_fetch_data_run (s : Send) log log' resp name b :
  s 0x1 [] log = (log', Ok resp) ->
  rmmini.name_of resp = Ok name ->
  nth_error resp 0x87 = Some b ->
  rmmini.fetch_data s log =
    (log', Ok [("name"%string, AStr name);
               ("is_locked"%string, ABool (negb (Byte.eqb b x00)))]).
Proof.
  intros Hs Hname Hb. unfold rmmini.fetch_data.
  rewrite (bind_ok _ _ _ _ _ Hs), lift_bind, Hname, lift_bind.
  now rewrite (is_locked_of_byte _ _ Hb).
Qed.

Lemma rmpro_fetch_data_run (s : Send) log log' resp name b :
  s 0x1 [] log = (log', Ok resp) ->
  rmmini.name_of resp = Ok name ->
  nth_error resp 0x87 = Some b ->
  exists t,
    rmpro.fetch_data s log =
      (log', Ok [("temperature"%string, AFloat t);
                 ("name"%string, AStr name);
                 ("is_locked"%string, ABool (negb (Byte.eqb b x00)))]).
Proof.
  intros Hs Hname Hb. unfold rmpro.fetch_data.
  destruct (nth_error_two resp 0x87 b ltac:(lia) Hb) as (b0 & b1 & r & ->).
  rewrite (bind_ok _ _ _ _ _ Hs), lift_bind, temperature_of_two, lift_bind, Hname, lift_bind.
  rewrite (is_locked_of_byte _ _ Hb). eexists. reflexivity.
Qed.

(** ** Which function an attribute is, class by class *)

Ltac each_class H :=
  cbn [In] in H;
  repeat (destruct H as [<- | H]; [| try contradiction ]);
  try contradiction.

Lemma self_send_legacy (c : Cls.t) (x : Externals) :
  In c [Cls.rmmini; Cls.rmpro; Cls.rm] -> self__send c x = rmmini._send x.
Proof. intros H. each_class H; reflexivity. Qed.

Lemma self_send_extended (c : Cls.t) (x : Externals) :
  In c [Cls.rmminib; Cls.rm4mini; Cls.rm4pro; Cls.rm4] ->
  self__send c x = rmminib._send x.
Proof. intros H. each_class H; reflexivity. Qed.

Lemma call_fetch_data (c : Cls.t) (x : Externals) :
  In c Cls.remotes ->
  call c x Op.fetch_data = fmap VDict (rmmini.fetch_data (self__send c x)) \/
  call c x Op.fetch_data = fmap VDict (rmpro.fetch_data (self__send c x)).
Proof.
  intros H. unfold Cls.remotes in H.
  each_class H; (left; reflexivity) || (right; reflexivity).
Qed.

(** [fetch_data] on any class, once [self._send] has returned [resp]. *)
Lemma fetch_data_fields (c : Cls.t) (x : Externals) log log' resp name b :
  In c Cls.remotes ->
  self__send c x 0x1 [] log = (log', Ok resp) ->
  rmmini.name_of resp = Ok name ->
  nth_error resp 0x87 = Some b ->
  exists d,
    call c x Op.fetch_data log = (log', Ok (VDict d)) /\
    getitem d "name" = Ok (AStr name) /\
    getitem d "is_locked" = Ok (ABool (negb (Byte.eqb b x00))).
Proof.
  intros Hc Hs Hname Hb.
  destruct (call_fetch_data c x Hc) as [-> | ->].
  - eexists. split; [|split].
    + apply fmap_ok. eapply rmmini_fetch_data_run; eassumption.
    + reflexivity.
    + reflexivity.
  - destruct (rmpro_fetch_data_run _ _ _ _ _ _ Hs Hname Hb) as [t Ht].
    eexists. split; [|split].
    + apply fmap_ok. exact Ht.
    + reflexivity.
    + reflexivity.
Qed.

(** ** The status fields *)

(** C4, as stated, fails: on [status_sample] the code answers the name "C"
    and unlocked, where the offsets 0x44 and 0x83 give the name "B" and locked
    when counted in the logical payload, and the name "A" and locked when
    counted in the decrypted buffer. *)
Lemma status_offsets_differ :
  outcome (call Cls.rmmini (canned (raw status_sample)) Op.fetch_data)
    = Ok (VDict [("name"%string, AStr (str_of_string "C"));
                 ("is_locked"%string, ABool false)]) /\
  Documented.name_of (skipn 4 status_sample) = Ok (str_of_string "B") /\
  Documented.is_locked_of (skipn 4 status_sample) = Ok true /\
  Documented.name_of status_sample = Ok (str_of_string "A") /\
  Documented.is_locked_of status_sample = Ok true.
Proof. repeat split; vm_compute; reflexivity. Qed.

(** C4 (amended): in the legacy-framing status parse the name is decoded as
    UTF-8 from offset 0x48 of the logical payload (0x4C of the decrypted
    buffer) up to the first NUL byte, and is_locked is the single byte at
    offset 0x87 of the logical payload (0x8B of the decrypted buffer), true if
    and only if it is non-zero. *)
Theorem legacy_status_fields :
  forall (c : Cls.t) (x : Externals) (log : list packet)
         (buf piece : bytes) (name : str) (b : byte),
    In c [Cls.rmmini; Cls.rmpro; Cls.rm] ->
    delivers x log [x01; x00; x00; x00] buf ->
    up_to_nul (skipn 0x4C buf) piece ->
    utf8.decode piece = Ok name ->
    nth_error buf 0x8B = Some b ->
    (skipn 0x4C buf = skipn 0x48 (skipn 4 buf) /\
     nth_error buf 0x8B = nth_error (skipn 4 buf) 0x87) /\
    exists d,
      call c x Op.fetch_data log
        = (log ++ [(0x6A, [x01; x00; x00; x00])], Ok (VDict d)) /\
      getitem d "name" = Ok (AStr name) /\
      getitem d "is_locked" = Ok (ABool (negb (Byte.eqb b x00))).
Proof.
  intros c x log buf piece name b Hc Hd Hp Hn Hb.
  assert (Hoff : skipn 0x4C buf = skipn 0x48 (skipn 4 buf) /\
                 nth_error buf 0x8B = nth_error (skipn 4 buf) 0x87).
  { split; [now rewrite skipn_skipn | now rewrite nth_error_skipn]. }
  split; [exact Hoff|].
  destruct Hoff as [Hname Hlock].
  apply fetch_data_fields with (resp := skipn 4 buf).
  - cbn [In] in Hc. unfold Cls.remotes. cbn [In]. tauto.
  - rewrite (self_send_legacy c x Hc).
    apply (rmmini_send_delivers x 0x1 [] log [x01; x00; x00; x00] buf).
    + reflexivity.
    + rewrite app_nil_r. exact Hd.
  - rewrite (name_of_up_to_nul (skipn 4 buf) piece); [exact Hn|].
    rewrite <- Hname. exact Hp.
  - rewrite <- Hlock. exact Hb.
Qed.

Lemma legacy_status_fields_witness :
  exists d,
    call Cls.rmmini (canned (raw status_sample)) Op.fetch_data []
      = ([] ++ [(0x6A, [x01; x00; x00; x00])], Ok (VDict d)) /\
    getitem d "name" = Ok (AStr (str_of_string "C")) /\
    getitem d "is_locked" = Ok (ABool (negb (Byte.eqb x00 x00))).
Proof.
  refine (proj2 (legacy_status_fields Cls.rmmini (canned (raw status_sample)) []
                   status_sample [x43] (str_of_string "C") x00 _ _ _ _ _)).
  - cbn [In]. tauto.
  - exists (raw status_sample). repeat split; reflexivity.
  - split.
    + cbn [In]. intros [H | H]; [discriminate H | exact H].
    + right. exists (skipn 0x4E status_sample). vm_compute. reflexivity.
  - reflexivity.
  - reflexivity.
Defined.

(** C9: the name stops at the first NUL byte.  Whenever the name region (the
    logical payload from offset 0x48) is [piece], free of NUL, followed by a
    NUL byte and anything at all, the decoded name is the decoding of [piece]
    alone; so a region that begins with b"Living Room" followed by NUL bytes
    gives exactly "Living Room", on every class. *)
Theorem name_stops_at_first_nul :
  (forall (c : Cls.t) (x : Externals) log log' (resp piece rest : bytes) (name : str),
      In c Cls.remotes ->
      self__send c x 0x1 [] log = (log', Ok resp) ->
      skipn 0x48 resp = piece ++ x00 :: rest ->
      ~ In x00 piece ->
      utf8.decode piece = Ok name ->
      (0x87 < length resp)%nat ->
      rmmini.name_of resp = Ok name /\
      exists d,
        call c x Op.fetch_data log = (log', Ok (VDict d)) /\
        getitem d "name" = Ok (AStr name))
  /\
  (forall (c : Cls.t) (x : Externals) log log' (resp rest : bytes),
      In c Cls.remotes ->
      self__send c x 0x1 [] log = (log', Ok resp) ->
      skipn 0x48 resp = Living_Room ++ x00 :: rest ->
      (0x87 < length resp)%nat ->
      exists d,
        call c x Op.fetch_data log = (log', Ok (VDict d)) /\
        getitem d "name" = Ok (AStr (str_of_string "Living Room"))).
Proof.
  assert (General :
    forall c x log log' resp piece rest name,
      In c Cls.remotes ->
      self__send c x 0x1 [] log = (log', Ok resp) ->
      skipn 0x48 resp = piece ++ x00 :: rest ->
      ~ In x00 piece ->
      utf8.decode piece = Ok name ->
      (0x87 < length resp)%nat ->
      rmmini.name_of resp = Ok name /\
      exists d,
        call c x Op.fetch_data log = (log', Ok (VDict d)) /\
        getitem d "name" = Ok (AStr name)).
  { intros c x log log' resp piece rest name Hc Hs Hr Hn Hd Hlen.
    assert (Hname : rmmini.name_of resp = Ok name).
    { rewrite (name_of_up_to_nul resp piece); [exact Hd|].
      split; [exact Hn | right; now exists rest]. }
    split; [exact Hname|].
    destruct (nth_error resp 0x87) as [b|] eqn:Hb.
    - destruct (fetch_data_fields c x log log' resp name b Hc Hs Hname Hb)
        as (d & Hcall & Hget & _).
      now exists d.
    - apply nth_error_None in Hb. lia. }
  split; [exact General|].
  intros c x log log' resp rest Hc Hs Hr Hlen.
  apply (General c x log log' resp Living_Room rest _ Hc Hs Hr).
  - vm_compute. intuition discriminate.
  - reflexivity.
  - exact Hlen.
Qed.

Lemma name_stops_at_first_nul_witness :
  exists d,
    call Cls.rmmini (canned (raw (zeros 4 ++ name_sample))) Op.fetch_data []
      = ([(0x6A, [x01; x00; x00; x00])], Ok (VDict d)) /\
    getitem d "name" = Ok (AStr (str_of_string "Living Room")).
Proof.
  refine (proj2 name_stops_at_first_nul Cls.rmmini
            (canned (raw (zeros 4 ++ name_sample))) [] _ name_sample
            (zeros 0x34) _ _ _ _).
  - unfold Cls.remotes. cbn [In]. tauto.
  - vm_compute. reflexivity.
  - vm_compute. reflexivity.
  - vm_compute. lia.
Defined.

(** ** The sensors *)

Lemma rmpro_check_sensors_run (s : Send) log log' b0 b1 r :
  s 0x1 [] log = (log', Ok (b0 :: b1 :: r)) ->
  rmpro.check_sensors s log =
    (log', Ok [("temperature"%string,
                AFloat (float_of_int (struct.signed b0)
                        + float_of_int (struct.signed b1) / 10)%float)]).
Proof.
  intros Hs. unfold rmpro.check_sensors.
  now rewrite (bind_ok _ _ _ _ _ Hs), lift_bind, temperature_of_two.
Qed.

Lemma rm4mini_check_sensors_run (s : Send) log log' b0 b1 b2 b3 r :
  s 0x24 [] log = (log', Ok (b0 :: b1 :: b2 :: b3 :: r)) ->
  rm4mini.check_sensors s log =
    (log', Ok [("temperature"%string,
                AFloat (float_of_int (struct.signed b0)
                        + float_of_int (struct.signed b1) / 100)%float);
               ("humidity"%string,
                AFloat (float_of_int (Z_of_byte b2)
                        + float_of_int (Z_of_byte b3) / 100)%float)]).
Proof.
  intros Hs. unfold rm4mini.check_sensors.
  now rewrite (bind_ok _ _ _ _ _ Hs).
Qed.

Lemma call_check_sensors_A (c : Cls.t) (x : Externals) :
  In c [Cls.rmpro; Cls.rm] ->
  call c x Op.check_sensors = fmap VDict (rmpro.check_sensors (self__send c x)).
Proof. intros H. each_class H; reflexivity. Qed.

Lemma call_check_sensors_B (c : Cls.t) (x : Externals) :
  In c [Cls.rm4mini; Cls.rm4pro; Cls.rm4] ->
  call c x Op.check_sensors = fmap VDict (rm4mini.check_sensors (self__send c x)).
Proof. intros H. each_class H; reflexivity. Qed.

Lemma call_fetch_data_A (c : Cls.t) (x : Externals) :
  In c [Cls.rmpro; Cls.rm] ->
  call c x Op.fetch_data = fmap VDict (rmpro.fetch_data (self__send c x)).
Proof. intros H. each_class H; reflexivity. Qed.

(** What a run of [fmap VDict c] returns is a dict that [c] returns. *)
Lemma fmap_VDict_inv (c : M dict) log log' d :
  fmap VDict c log = (log', Ok (VDict d)) -> c log = (log', Ok d).
Proof.
  unfold fmap, bind, ret. destruct (c log) as [l [a|e]]; intros H.
  - now inversion H.
  - discriminate.
Qed.

Lemma rmpro_check_sensors_keys (s : Send) log log' d :
  rmpro.check_sensors s log = (log', Ok d) -> map fst d = ["temperature"%string].
Proof.
  unfold rmpro.check_sensors, bind, lift, ret.
  destruct (s 0x1 [] log) as [l [resp|e]]; [|discriminate].
  destruct (rmpro.temperature_of resp) as [t|e]; [|discriminate].
  intros H. inversion H. reflexivity.
Qed.

Lemma rmpro_fetch_data_keys (s : Send) log log' d :
  rmpro.fetch_data s log = (log', Ok d) ->
  map fst d = ["temperature"%string; "name"%string; "is_locked"%string].
Proof.
  unfold rmpro.fetch_data, bind, lift, ret.
  destruct (s 0x1 [] log) as [l [resp|e]]; [|discriminate].
  destruct (rmpro.temperature_of resp) as [t|e]; [|discriminate].
  destruct (rmmini.name_of resp) as [n|e]; [|discriminate].
  destruct (rmmini.is_locked_of resp) as [k|e]; [|discriminate].
  intros H. inversion H. reflexivity.
Qed.

Lemma has_key_keys (d : dict) (k : string) :
  has_key d k = existsb (fun k' => String.eqb k' k) (map fst d).
Proof.
  unfold has_key. induction d as [|[k' v] r IH]; simpl; [reflexivity | now rewrite IH].
Qed.

Lemma signed_char (b : byte) (v : Z) :
  -128 <= v < 128 -> (v - Z_of_byte b) mod 256 = 0 -> struct.signed b = v.
Proof.
  intros Hv Hm. pose proof (Z_of_byte_range b) as Hb.
  apply Z.mod_divide in Hm; [|lia]. destruct Hm as [k Hk].
  unfold struct.signed. destruct (Z.ltb_spec (Z_of_byte b) 128); lia.
Qed.

Lemma float_of_int_steps :
  Forall (fun z => float_of_int (z + 1) = (float_of_int z + 1)%float) small_ints.
Proof. unfold small_ints. cbn [seq map]. repeat constructor. Qed.

Lemma float_of_int_succ (z : Z) :
  -128 <= z < 255 -> float_of_int (z + 1) = (float_of_int z + 1)%float.
Proof.
  intros Hz. pose proof float_of_int_steps as H.
  rewrite Forall_forall in H. apply H.
  unfold small_ints. apply in_map_iff. exists (Z.to_nat (z + 128)).
  split; [lia | apply in_seq; lia].
Qed.

(** C5: on a logical payload that holds the sensor fields, [check_sensors]
    decodes the temperature from the two signed bytes b0, b1 at the offsets 0
    and 1 as b0 + b1/10 on generation A (rmpro and its alias rm) and as
    b0 + b1/100 on generation B (rm4mini, rm4pro and its alias rm4).  Signed
    means two's complement: the value of a byte is the integer from -128 to
    127 that differs from it by a multiple of 256; integers become floats
    exactly (0 is 0.0 and the next integer is one more).  The bytes
    (0x19, 0x02) give the floats 25.2 and 25.02, the bytes (0xF6, 0xFB) give
    -10.5 and -10.05.  Only generation B returns a humidity, b2 + b3/100 from
    the unsigned bytes at the offsets 2 and 3: (0x3C, 0x05) give 60.05 and
    (0xC8, 0x63) give 200.99; no dict returned by a generation-A parser has a
    humidity key. *)
Theorem check_sensors_decoding :
  forall (x : Externals) (log log' : list packet),
    (forall c b0 b1 r s0 s1,
        In c [Cls.rmpro; Cls.rm] ->
        self__send c x 0x1 [] log = (log', Ok (b0 :: b1 :: r)) ->
        -128 <= s0 < 128 -> (s0 - Z_of_byte b0) mod 256 = 0 ->
        -128 <= s1 < 128 -> (s1 - Z_of_byte b1) mod 256 = 0 ->
        call c x Op.check_sensors log =
          (log', Ok (VDict
             [("temperature"%string,
               AFloat (float_of_int s0 + float_of_int s1 / 10)%float)])))
    /\
    (forall c b0 b1 b2 b3 r s0 s1,
        In c [Cls.rm4mini; Cls.rm4pro; Cls.rm4] ->
        self__send c x 0x24 [] log = (log', Ok (b0 :: b1 :: b2 :: b3 :: r)) ->
        -128 <= s0 < 128 -> (s0 - Z_of_byte b0) mod 256 = 0 ->
        -128 <= s1 < 128 -> (s1 - Z_of_byte b1) mod 256 = 0 ->
        call c x Op.check_sensors log =
          (log', Ok (VDict
             [("temperature"%string,
               AFloat (float_of_int s0 + float_of_int s1 / 100)%float);
              ("humidity"%string,
               AFloat (float_of_int (Z_of_byte b2)
                       + float_of_int (Z_of_byte b3) / 100)%float)])))
    /\
    (forall c o d,
        In c [Cls.rmpro; Cls.rm] ->
        o = Op.check_sensors \/ o = Op.fetch_data ->
        call c x o log = (log', Ok (VDict d)) ->
        has_key d "humidity" = false)
    /\
    (float_of_int 0 = 0%float /\
     forall z, -128 <= z < 255 -> float_of_int (z + 1) = (float_of_int z + 1)%float)
    /\
    outcome (call Cls.rmpro (canned (raw sensors_legacy_sample)) Op.check_sensors)
      = Ok (VDict [("temperature"%string, AFloat 25.2)])
    /\
    outcome (call Cls.rm4mini (canned (raw sensors_extended_sample)) Op.check_sensors)
      = Ok (VDict [("temperature"%string, AFloat 25.02);
                   ("humidity"%string, AFloat 60.05)])
    /\
    outcome (call Cls.rm4pro (canned (raw sensors_extended_sample)) Op.check_sensors)
      = Ok (VDict [("temperature"%string, AFloat 25.02);
                   ("humidity"%string, AFloat 60.05)])
    /\
    outcome (call Cls.rmpro (canned (raw sensors_legacy_high)) Op.check_sensors)
      = Ok (VDict [("temperature"%string, AFloat (-10.5))])
    /\
    outcome (call Cls.rm4mini (canned (raw sensors_extended_high)) Op.check_sensors)
      = Ok (VDict [("temperature"%string, AFloat (-10.05));
                   ("humidity"%string, AFloat 200.99)])
    /\
    outcome (call Cls.rm4pro (canned (raw sensors_extended_high)) Op.check_sensors)
      = Ok (VDict [("temperature"%string, AFloat (-10.05));
                   ("humidity"%string, AFloat 200.99)]).
Proof.
  intros x log log'.
  split; [|split; [|split; [|split; [|repeat split; vm_compute; reflexivity]]]].
  - intros c b0 b1 r s0 s1 Hc Hs H0 H0' H1 H1'.
    rewrite (call_check_sensors_A c x Hc).
    apply fmap_ok. rewrite (rmpro_check_sensors_run _ _ _ _ _ _ Hs).
    now rewrite (signed_char b0 s0 H0 H0'), (signed_char b1 s1 H1 H1').
  - intros c b0 b1 b2 b3 r s0 s1 Hc Hs H0 H0' H1 H1'.
    rewrite (call_check_sensors_B c x Hc).
    apply fmap_ok. rewrite (rm4mini_check_sensors_run _ _ _ _ _ _ _ _ Hs).
    now rewrite (signed_char b0 s0 H0 H0'), (signed_char b1 s1 H1 H1').
  - intros c o d Hc [-> | ->] Hcall.
    + rewrite (call_check_sensors_A c x Hc) in Hcall.
      apply fmap_VDict_inv, rmpro_check_sensors_keys in Hcall.
      rewrite has_key_keys, Hcall. reflexivity.
    + rewrite (call_fetch_data_A c x Hc) in Hcall.
      apply fmap_VDict_inv, rmpro_fetch_data_keys in Hcall.
      rewrite has_key_keys, Hcall. reflexivity.
  - split; [reflexivity | exact float_of_int_succ].
Qed.

Lemma check_sensors_decoding_witness :
  call Cls.rm (canned (raw sensors_legacy_high)) Op.check_sensors [] =
    ([(0x6A, [x01; x00; x00; x00])],
     Ok (VDict
       [("temperature"%string,
         AFloat (float_of_int (-10) + float_of_int (-5) / 10)%float)]))
  /\
  call Cls.rm4 (canned (raw sensors_extended_high)) Op.check_sensors [] =
    ([(0x6A, [x04; x00; x24; x00; x00; x00])],
     Ok (VDict
       [("temperature"%string,
         AFloat (float_of_int (-10) + float_of_int (-5) / 100)%float);
        ("humidity"%string,
         AFloat (float_of_int (Z_of_byte xc8)
                 + float_of_int (Z_of_byte x63) / 100)%float)]))
  /\
  has_key [("temperature"%string, AFloat 25.2)] "humidity" = false
  /\
  float_of_int (-128 + 1) = (float_of_int (-128) + 1)%float.
Proof.
  split; [|split; [|split]].
  - refine (proj1 (check_sensors_decoding (canned (raw sensors_legacy_high)) [] _)
              Cls.rm xf6 xfb [xc8; x63] (-10) (-5) _ _ _ _ _ _).
    + cbn [In]. tauto.
    + vm_compute. reflexivity.
    + lia.
    + reflexivity.
    + lia.
    + reflexivity.
  - refine (proj1 (proj2 (check_sensors_decoding
                     (canned (raw sensors_extended_high)) [] _))
              Cls.rm4 xf6 xfb xc8 x63 [] (-10) (-5) _ _ _ _ _ _).
    + cbn [In]. tauto.
    + vm_compute. reflexivity.
    + lia.
    + reflexivity.
    + lia.
    + reflexivity.
  - refine (proj1 (proj2 (proj2 (check_sensors_decoding
                     (canned (raw sensors_legacy_sample)) [] _)))
              Cls.rmpro Op.check_sensors _ _ _ _).
    + cbn [In]. tauto.
    + left. reflexivity.
    + vm_compute. reflexivity.
  - refine (proj2 (proj1 (proj2 (proj2 (proj2 (check_sensors_decoding
                     (canned (raw sensors_legacy_sample)) [] [])))))
              (-128) _).
    lia.
Defined.

(** ** The class hierarchy *)

Lemma mro_values :
  map mro Cls.remotes =
    [[Cls.rmmini; Cls.device];
     [Cls.rmpro; Cls.rmmini; Cls.device];
     [Cls.rmminib; Cls.rmmini; Cls.device];
     [Cls.rm4mini; Cls.rmminib; Cls.rmmini; Cls.device];
     [Cls.rm4pro; Cls.rm4mini; Cls.rmminib; Cls.rmpro; Cls.rmmini; Cls.device];
     [Cls.rm; Cls.rmpro; Cls.rmmini; Cls.device];
     [Cls.rm4; Cls.rm4pro; Cls.rm4mini; Cls.rmminib; Cls.rmpro; Cls.rmmini;
      Cls.device]].
Proof. reflexivity. Qed.

Lemma call_fetch_data_mini (c : Cls.t) (x : Externals) :
  In c [Cls.rmmini; Cls.rmminib; Cls.rm4mini] ->
  call c x Op.fetch_data = fmap VDict (rmmini.fetch_data (self__send c x)).
Proof. intros H. each_class H; reflexivity. Qed.

Lemma call_fetch_data_pro (c : Cls.t) (x : Externals) :
  In c [Cls.rmpro; Cls.rm4pro; Cls.rm; Cls.rm4] ->
  call c x Op.fetch_data = fmap VDict (rmpro.fetch_data (self__send c x)).
Proof. intros H. each_class H; reflexivity. Qed.




(** ** The operations *)

(** Unfold the attribute lookup of a call on a known class, leaving the method
    bodies and [self._send] folded. *)
Ltac resolve :=
  cbv [call has_method self_check_sensors lookup mro
       C3.linearize C3.merge C3.candidate C3.good C3.mem C3.drop C3.nonempty
       C3.sequence Cls.bases Cls.eqb dict_method dict_check_sensors
       List.map List.filter List.app List.concat List.length List.existsb
       List.forallb List.tl negb andb orb
       Documented.opcode Documented.payload Documented.generation_B].

(** A method body, after its one call of [_send], only computes. *)
Ltac after_send s log :=
  unfold fmap,
    rmmini.fetch_data, rmmini.send_data, rmmini.enter_learning, rmmini.check_data,
    rmpro.fetch_data, rmpro.sweep_frequency, rmpro.check_frequency,
    rmpro.find_rf_packet, rmpro.cancel_sweep_frequency, rmpro.check_sensors,
    rmpro.check_temperature, rm4mini.check_sensors, rm4mini.check_temperature,
    rm4mini.check_humidity, bind, lift, ret;
  match goal with
  | |- context [s ?op ?pl log] => destruct (s op pl log) as [? [? | ?]]
  end;
  cbn [fst snd];
  repeat match goal with
         | |- context [match ?r with Ok _ => _ | Raise _ => _ end] => destruct r
         end;
  reflexivity.

Lemma call_wire (c : Cls.t) (o : Op.t) (x : Externals) (log : list packet) :
  In c Cls.remotes ->
  has_method c o = true ->
  fst (call c x o log)
  = fst (self__send c x (Documented.opcode c o) (Documented.payload o) log).
Proof.
  intros Hc Hm. unfold Cls.remotes in Hc.
  each_class Hc; destruct o;
    try (vm_compute in Hm; discriminate Hm); clear Hm; resolve;
    match goal with
    | |- context [self__send ?C x] =>
        generalize (self__send C x); intros s; after_send s log
    end.
Qed.



(** C8: [check_frequency] returns True if and only if the first byte of what
    [_send] returned is exactly 1; for every other first byte, 0x00 and 0xFF
    among them, it returns False. *)
Theorem check_frequency_first_byte :
  forall (c : Cls.t) (x : Externals) (log log' : list packet) (b : byte) (r : bytes),
    has_method c Op.check_frequency = true ->
    self__send c x 0x1A [] log = (log', Ok (b :: r)) ->
    exists v,
      call c x Op.check_frequency log = (log', Ok (VBool v)) /\
      (v = true <-> b = x01) /\
      (b = x00 \/ b = xff -> v = false).
Proof.
  intros c x log log' b r Hm Hs.
  assert (Hcall : call c x Op.check_frequency
                  = fmap VBool (rmpro.check_frequency (self__send c x))).
  { destruct c; try (vm_compute in Hm; discriminate Hm); reflexivity. }
  exists (Z_of_byte b =? 1). split; [|split].
  - rewrite Hcall. apply fmap_ok. unfold rmpro.check_frequency.
    rewrite (bind_ok _ _ _ _ _ Hs). reflexivity.
  - rewrite Z.eqb_eq. split.
    + intros H. apply Z_of_byte_inj. exact H.
    + intros ->. reflexivity.
  - intros [-> | ->]; reflexivity.
Qed.

Lemma check_frequency_first_byte_witness :
  exists v,
    call Cls.rmpro (canned (raw [x00; x00; x00; x00; x01])) Op.check_frequency []
      = ([(0x6A, [x1a; x00; x00; x00])], Ok (VBool v)) /\
    (v = true <-> x01 = x01) /\
    (x01 = x00 \/ x01 = xff -> v = false).
Proof.
  refine (check_frequency_first_byte Cls.rmpro
            (canned (raw [x00; x00; x00; x00; x01])) [] _ x01 [] _ _).
  - reflexivity.
  - vm_compute. reflexivity.
Defined.

(** ** Operations a class does not have *)

(** C2, as stated, fails: [check_humidity] on an rmmini, whose flags lack
    CHECK_HUMIDITY, hands nothing over, but what is raised is the
    AttributeError of the failed lookup, not UnsupportedOperation. *)
Lemma check_humidity_on_rmmini :
  supported_features Cls.rmmini = Ok 3 /\
  Features.mem Features.CHECK_HUMIDITY 3 = false /\
  sent (call Cls.rmmini (canned (raw [])) Op.check_humidity) = [] /\
  outcome (call Cls.rmmini (canned (raw [])) Op.check_humidity)
    = Raise AttributeError /\
  outcome (call Cls.rmmini (canned (raw [])) Op.check_humidity)
    <> Raise UnsupportedOperation.
Proof. repeat split; try reflexivity. vm_compute. discriminate. Qed.

(** C2 (amended): for every class and every operation whose feature is not in
    the flags of the class, the class has no such method: the call raises
    AttributeError at the attribute lookup and hands nothing over.  There is
    no check of the flags and no UnsupportedOperation. *)
Theorem missing_feature_means_missing_method :
  forall (c : Cls.t) (o : Op.t) (flag flags : Z),
    In c Cls.remotes ->
    Documented.feature_of o = Some flag ->
    supported_features c = Ok flags ->
    Features.mem flag flags = false ->
    has_method c o = false /\
    forall (x : Externals) (log : list packet),
      call c x o log = (log, Raise AttributeError).
Proof.
  intros c o flag flags Hc Hf Hs Hm. unfold Cls.remotes in Hc.
  each_class Hc; destruct o;
    vm_compute in Hf; inversion Hf; subst flag;
    vm_compute in Hs; inversion Hs; subst flags;
    vm_compute in Hm; try discriminate Hm;
    (split; [reflexivity | intros x log; reflexivity]).
Qed.

Lemma missing_feature_means_missing_method_witness :
  has_method Cls.rmpro Op.check_humidity = false /\
  forall (x : Externals) (log : list packet),
    call Cls.rmpro x Op.check_humidity log = (log, Raise AttributeError).
Proof.
  refine (missing_feature_means_missing_method Cls.rmpro Op.check_humidity
            Features.CHECK_HUMIDITY 31 _ _ _ _).
  - unfold Cls.remotes. cbn [In]. tauto.
  - reflexivity.
  - reflexivity.
  - reflexivity.
Defined.


(** * Further properties of the module *)

(** ** Answers that are well-formed frames *)

Lemma length_four {A} (l : list A) :
  length l = 4%nat -> exists a b c d, l = [a; b; c; d].
Proof.
  destruct l as [|a [|b [|c [|d [|e r]]]]]; try discriminate. intros _. eauto.
Qed.

Lemma length_two {A} (l : list A) : length l = 2%nat -> exists a b, l = [a; b].
Proof.
  destruct l as [|a [|b [|c r]]]; try discriminate. intros _. eauto.
Qed.

Lemma pack_I_inv (v : Z) (hdr : bytes) :
  struct.pack_I v = Ok hdr -> 0 <= v < 2 ^ 32 /\ hdr = struct.le_bytes 4 v.
Proof.
  unfold struct.pack_I. destruct (struct.in_range v 32) eqn:E; [|discriminate].
  intros H. inversion H. split; [now apply in_range_true | reflexivity].
Qed.

Lemma pack_HI_inv (h v : Z) (hdr : bytes) :
  struct.pack_HI h v = Ok hdr ->
  0 <= h < 2 ^ 16 /\ 0 <= v < 2 ^ 32 /\
  hdr = struct.le_bytes 2 h ++ struct.le_bytes 4 v.
Proof.
  unfold struct.pack_HI.
  destruct (struct.in_range h 16) eqn:Eh; [|discriminate].
  destruct (struct.in_range v 32) eqn:Ev; [|discriminate].
  intros H. cbn [andb] in H. injection H as <-.
  split; [now apply in_range_true|]. split; [now apply in_range_true | reflexivity].
Qed.

(** X1: when the device answers with a well-formed frame, [_send] returns its
    body.  Under the extended framing the answer is a 2-byte length equal to
    len(body)+4, four more bytes, the body and any padding: the padding is cut
    off.  Under the legacy framing the answer is four bytes and then the
    body, and everything after the four bytes is returned.  In particular a
    device that hands the frame back unchanged makes [_send] return the data
    it was given, under both framings. *)
Theorem logical_payload_of_framed_answer :
  forall (x : Externals) (command : Z) (data : bytes) (log : list packet)
         (hdr : bytes),
    (struct.pack_I command = Ok hdr ->
       (forall four body,
           length four = 4%nat ->
           delivers x log (hdr ++ data) (four ++ body) ->
           rmmini._send x command data log
             = (log ++ [(0x6A, hdr ++ data)], Ok body)) /\
       (delivers x log (hdr ++ data) (hdr ++ data) ->
           rmmini._send x command data log
             = (log ++ [(0x6A, hdr ++ data)], Ok data)))
    /\
    (struct.pack_HI (Z.of_nat (length data) + 4) command = Ok hdr ->
       (forall lenf four body padding,
           length lenf = 2%nat ->
           length four = 4%nat ->
           le_uint lenf = Z.of_nat (length body) + 4 ->
           delivers x log (hdr ++ data) (lenf ++ four ++ body ++ padding) ->
           rmminib._send x command data log
             = (log ++ [(0x6A, hdr ++ data)], Ok body)) /\
       (delivers x log (hdr ++ data) (hdr ++ data) ->
           rmminib._send x command data log
             = (log ++ [(0x6A, hdr ++ data)], Ok data))).
Proof.
  intros x command data log hdr.
  assert (Legacy : struct.pack_I command = Ok hdr ->
            forall four body,
              length four = 4%nat ->
              delivers x log (hdr ++ data) (four ++ body) ->
              rmmini._send x command data log
                = (log ++ [(0x6A, hdr ++ data)], Ok body)).
  { intros Hp four body Hf Hd.
    rewrite (rmmini_send_delivers _ _ _ _ _ _ Hp Hd).
    destruct (length_four four Hf) as (a & b & c & d & ->). reflexivity. }
  assert (Extended :
            struct.pack_HI (Z.of_nat (length data) + 4) command = Ok hdr ->
            forall lenf four body padding,
              length lenf = 2%nat ->
              length four = 4%nat ->
              le_uint lenf = Z.of_nat (length body) + 4 ->
              delivers x log (hdr ++ data) (lenf ++ four ++ body ++ padding) ->
              rmminib._send x command data log
                = (log ++ [(0x6A, hdr ++ data)], Ok body)).
  { intros Hp lenf four body padding Hl Hf Hv Hd.
    rewrite (rmminib_send_delivers _ _ _ _ _ _ Hp Hd).
    destruct (length_two lenf Hl) as (l0 & l1 & ->).
    destruct (length_four four Hf) as (a & b & c & d & ->).
    cbn [app]. rewrite Hv. do 2 f_equal.
    unfold slice. change (Z.to_nat 0x6) with 6%nat. cbn [skipn].
    replace (Z.to_nat (Z.of_nat (length body) + 4 + 2) - 6)%nat
      with (length body + 0)%nat by lia.
    rewrite firstn_app_2. cbn [firstn]. apply app_nil_r. }
  split.
  - intros Hp. split; [now apply Legacy|].
    intros Hd. apply (Legacy Hp hdr data); [|exact Hd].
    destruct (pack_I_inv _ _ Hp) as [_ ->]. apply length_le_bytes.
  - intros Hp. split; [now apply Extended|].
    intros Hd. destruct (pack_HI_inv _ _ _ Hp) as (Hh & Hc & Hhdr).
    apply (Extended Hp (struct.le_bytes 2 (Z.of_nat (length data) + 4))
             (struct.le_bytes 4 command) data []).
    + apply length_le_bytes.
    + apply length_le_bytes.
    + apply le_uint_le_bytes. change (2 ^ (8 * Z.of_nat 2)) with (2 ^ 16). exact Hh.
    + rewrite app_nil_r, app_assoc, <- Hhdr. exact Hd.
Qed.

Lemma logical_payload_of_framed_answer_witness :
  rmmini._send echo 0x2 [x26; x00] []
    = ([(0x6A, [x02; x00; x00; x00; x26; x00])], Ok [x26; x00]) /\
  rmminib._send echo 0x2 [x26; x00] []
    = ([(0x6A, [x06; x00; x02; x00; x00; x00; x26; x00])], Ok [x26; x00]).
Proof.
  split.
  - refine (proj2 (proj1 (logical_payload_of_framed_answer echo 0x2 [x26; x00] []
                            [x02; x00; x00; x00]) eq_refl) _).
    exists (zeros 0x38 ++ [x02; x00; x00; x00; x26; x00]).
    repeat split; reflexivity.
  - refine (proj2 (proj2 (logical_payload_of_framed_answer echo 0x2 [x26; x00] []
                            [x06; x00; x02; x00; x00; x00]) eq_refl) _).
    exists (zeros 0x38 ++ [x06; x00; x02; x00; x00; x00; x26; x00]).
    repeat split; reflexivity.
Defined.

(** ** What reaches the wire *)

Lemma has_method_false (c : Cls.t) (o : Op.t) (x : Externals) :
  has_method c o = false -> call c x o = raise AttributeError.
Proof.
  unfold has_method, call.
  destruct (lookup (dict_method o) c); [discriminate | reflexivity].
Qed.

Lemma remotes_framing (c : Cls.t) :
  In c Cls.remotes ->
  In c [Cls.rmmini; Cls.rmpro; Cls.rm] \/
  In c [Cls.rmminib; Cls.rm4mini; Cls.rm4pro; Cls.rm4].
Proof.
  intros H. unfold Cls.remotes in H.
  each_class H; cbn [In]; tauto.
Qed.

(** One [self._send]: either the header cannot be packed and nothing is
    handed over, or exactly the frame is, and the result is what the device
    and the decoding give. *)
Lemma self_send_cases (c : Cls.t) (x : Externals) command data log :
  In c Cls.remotes ->
  self__send c x command data log = (log, Raise struct_error) \/
  exists frame r,
    self__send c x command data log = (log ++ [(0x6A, frame)], r) /\
    (forall e, send_packet x log 0x6A frame = Raise e -> r = Raise e) /\
    (forall resp e,
        send_packet x log 0x6A frame = Ok resp ->
        check_error x (slice 0x22 0x24 resp) = Raise e -> r = Raise e) /\
    (forall resp u e,
        send_packet x log 0x6A frame = Ok resp ->
        check_error x (slice 0x22 0x24 resp) = Ok u ->
        decrypt x (slice_from 0x38 resp) = Raise e -> r = Raise e).
Proof.
  intros Hc. destruct (remotes_framing c Hc) as [Hl | He].
  - rewrite (self_send_legacy c x Hl).
    destruct (struct.pack_I command) as [hdr|e] eqn:Hp.
    + right. rewrite (rmmini_send_run _ _ _ _ _ Hp).
      eexists. eexists. split; [reflexivity|].
      repeat split; intros; repeat match goal with H : _ = _ |- _ => rewrite H end;
        reflexivity.
    + left. rewrite (rmmini_send_unpacked _ _ _ _ _ Hp).
      unfold struct.pack_I in Hp. destruct (struct.in_range command 32); congruence.
  - rewrite (self_send_extended c x He).
    destruct (struct.pack_HI (Z.of_nat (length data) + 4) command) as [hdr|e] eqn:Hp.
    + right. rewrite (rmminib_send_run _ _ _ _ _ Hp).
      eexists. eexists. split; [reflexivity|].
      repeat split; intros; repeat match goal with H : _ = _ |- _ => rewrite H end;
        reflexivity.
    + left. rewrite (rmminib_send_unpacked _ _ _ _ _ Hp).
      unfold struct.pack_HI in Hp.
      destruct (struct.in_range (Z.of_nat (length data) + 4) 16 &&
                struct.in_range command 32); congruence.
Qed.

(** X2: an operation hands over at most one packet, always with the command
    0x6A, and leaves the packets handed over before untouched: after any
    call, on any class, the log is the log before or the log before with one
    packet (0x6A, frame) appended. *)
Theorem at_most_one_packet :
  forall (c : Cls.t) (o : Op.t) (x : Externals) (log : list packet),
    In c Cls.remotes ->
    fst (call c x o log) = log \/
    exists frame, fst (call c x o log) = log ++ [(0x6A, frame)].
Proof.
  intros c o x log Hc.
  destruct (has_method c o) eqn:Hm.
  - rewrite (call_wire c o x log Hc Hm).
    destruct (self_send_cases c x (Documented.opcode c o) (Documented.payload o) log Hc)
      as [-> | (frame & r & -> & _)].
    + now left.
    + right. now exists frame.
  - left. now rewrite (has_method_false c o x Hm).
Qed.

Lemma at_most_one_packet_witness :
  fst (call Cls.rm4mini echo Op.check_humidity [(0x6A, [x03; x00; x00; x00])])
    = [(0x6A, [x03; x00; x00; x00])] \/
  exists frame,
    fst (call Cls.rm4mini echo Op.check_humidity [(0x6A, [x03; x00; x00; x00])])
      = [(0x6A, [x03; x00; x00; x00])] ++ [(0x6A, frame)].
Proof.
  apply (at_most_one_packet Cls.rm4mini Op.check_humidity echo
           [(0x6A, [x03; x00; x00; x00])]).
  unfold Cls.remotes. cbn [In]. tauto.
Defined.

(** ** Failures and results pass through the operations *)

Ltac unfold_bodies :=
  unfold fmap,
    rmmini.fetch_data, rmmini.send_data, rmmini.enter_learning, rmmini.check_data,
    rmpro.fetch_data, rmpro.sweep_frequency, rmpro.check_frequency,
    rmpro.find_rf_packet, rmpro.cancel_sweep_frequency, rmpro.check_sensors,
    rmpro.check_temperature, rm4mini.check_sensors, rm4mini.check_temperature,
    rm4mini.check_humidity, bind, lift, ret.

(** What [self._send] raises, the operation raises. *)
Lemma call_raises (c : Cls.t) (o : Op.t) (x : Externals) log log' e :
  In c Cls.remotes ->
  has_method c o = true ->
  self__send c x (Documented.opcode c o) (Documented.payload o) log = (log', Raise e) ->
  call c x o log = (log', Raise e).
Proof.
  intros Hc Hm. unfold Cls.remotes in Hc.
  each_class Hc; destruct o;
    try (vm_compute in Hm; discriminate Hm); clear Hm; resolve;
    match goal with
    | |- context [self__send ?C x] =>
        generalize (self__send C x); intros s Hs; unfold_bodies; rewrite Hs;
        reflexivity
    end.
Qed.

Lemma call_returns_None (c : Cls.t) (o : Op.t) (x : Externals) log log' resp :
  In c Cls.remotes ->
  has_method c o = true ->
  returns_None o = true ->
  self__send c x (Documented.opcode c o) (Documented.payload o) log = (log', Ok resp) ->
  call c x o log = (log', Ok VNone).
Proof.
  intros Hc Hm Hn. unfold Cls.remotes in Hc.
  each_class Hc; destruct o; try discriminate Hn; clear Hn;
    try (vm_compute in Hm; discriminate Hm); clear Hm; resolve;
    match goal with
    | |- context [self__send ?C x] =>
        generalize (self__send C x); intros s Hs; unfold_bodies; rewrite Hs;
        reflexivity
    end.
Qed.

Lemma call_check_data (c : Cls.t) (x : Externals) :
  In c Cls.remotes ->
  call c x Op.check_data = fmap VBytes (self__send c x 0x4 []).
Proof.
  intros Hc. unfold Cls.remotes in Hc. each_class Hc; reflexivity.
Qed.

Lemma app_one_neq {A} (l : list A) (a : A) : l ++ [a] <> l.
Proof.
  intros H. apply (f_equal (@length A)) in H. rewrite length_app in H.
  simpl in H. lia.
Qed.

(** X3: a failure of the device passes through every operation unchanged.
    Once an operation has handed over its frame, whatever [send_packet]
    raises, or else [check_error] on the bytes 0x22-0x23 of the answer, or
    else [decrypt] on the answer from 0x38, is what the operation raises;
    no operation catches or replaces it, and no second packet follows. *)
Theorem device_failure_passes_through :
  forall (c : Cls.t) (o : Op.t) (x : Externals) (log : list packet)
         (frame : bytes) (e : Exn),
    In c Cls.remotes ->
    fst (call c x o log) = log ++ [(0x6A, frame)] ->
    (send_packet x log 0x6A frame = Raise e \/
     exists resp,
       send_packet x log 0x6A frame = Ok resp /\
       (check_error x (slice 0x22 0x24 resp) = Raise e \/
        exists u,
          check_error x (slice 0x22 0x24 resp) = Ok u /\
          decrypt x (slice_from 0x38 resp) = Raise e)) ->
    call c x o log = (log ++ [(0x6A, frame)], Raise e).
Proof.
  intros c o x log frame e Hc Hw Hfail.
  destruct (has_method c o) eqn:Hm.
  - pose proof (call_wire c o x log Hc Hm) as Hcw. rewrite Hw in Hcw.
    destruct (self_send_cases c x (Documented.opcode c o) (Documented.payload o) log Hc)
      as [Hs | (frame' & r & Hs & H1 & H2 & H3)].
    + rewrite Hs in Hcw. cbn [fst] in Hcw. exfalso. now apply (app_one_neq log (0x6A, frame)).
    + rewrite Hs in Hcw. cbn [fst] in Hcw.
      apply app_inv_head in Hcw. injection Hcw as <-.
      assert (Hr : r = Raise e).
      { destruct Hfail as [Hsp | (resp & Hsp & [Hce | (u & Hce & Hde)])].
        - now apply H1.
        - now apply (H2 resp).
        - now apply (H3 resp u). }
      subst r. now apply call_raises.
  - rewrite (has_method_false c o x Hm) in Hw. cbn in Hw.
    exfalso. now apply (app_one_neq log (0x6A, frame)).
Qed.

Lemma device_failure_passes_through_witness :
  call Cls.rm4pro (failing 0xFFF9) Op.check_frequency []
    = ([] ++ [(0x6A, [x04; x00; x1a; x00; x00; x00])], Raise (External 0xFFF9)).
Proof.
  apply (device_failure_passes_through Cls.rm4pro Op.check_frequency (failing 0xFFF9) []).
  - unfold Cls.remotes. cbn [In]. tauto.
  - reflexivity.
  - right. eexists. split; [reflexivity|]. left. reflexivity.
Defined.

(** X4: the operations annotated [-> None] (send_data, enter_learning,
    sweep_frequency, find_rf_packet, cancel_sweep_frequency) return None as
    soon as [_send] returns, whatever the device answered: the answer is
    dropped.  [check_data] is the opposite: it returns what [_send] returns,
    byte for byte, and raises what it raises. *)
Theorem answers_dropped_or_returned :
  forall (c : Cls.t) (x : Externals) (log log' : list packet),
    In c Cls.remotes ->
    (forall o resp,
        has_method c o = true ->
        returns_None o = true ->
        self__send c x (Documented.opcode c o) (Documented.payload o) log
          = (log', Ok resp) ->
        call c x o log = (log', Ok VNone))
    /\
    (forall resp,
        self__send c x 0x4 [] log = (log', Ok resp) ->
        call c x Op.check_data log = (log', Ok (VBytes resp)))
    /\
    (forall e,
        self__send c x 0x4 [] log = (log', Raise e) ->
        call c x Op.check_data log = (log', Raise e)).
Proof.
  intros c x log log' Hc. split; [|split].
  - intros o resp Hm Hn Hs. now apply (call_returns_None c o x log log' resp).
  - intros resp Hs. rewrite (call_check_data c x Hc). now apply fmap_ok.
  - intros e Hs. rewrite (call_check_data c x Hc).
    unfold fmap. now apply bind_raise.
Qed.

Lemma answers_dropped_or_returned_witness :
  call Cls.rmminib echo (Op.send_data [x26; x00]) []
    = ([(0x6A, [x06; x00; x02; x00; x00; x00; x26; x00])], Ok VNone)
  /\
  call Cls.rmminib echo Op.check_data []
    = ([(0x6A, [x04; x00; x04; x00; x00; x00])], Ok (VBytes [])).
Proof.
  split.
  - refine (proj1 (answers_dropped_or_returned Cls.rmminib echo [] _ _)
              (Op.send_data [x26; x00]) [x26; x00] _ _ _).
    + unfold Cls.remotes. cbn [In]. tauto.
    + reflexivity.
    + reflexivity.
    + reflexivity.
  - refine (proj1 (proj2 (answers_dropped_or_returned Cls.rmminib echo [] _ _)) [] _).
    + unfold Cls.remotes. cbn [In]. tauto.
    + reflexivity.
Defined.

(** ** Codes: too long to send, and learned codes sent again *)

Lemma has_send_data (c : Cls.t) (data : bytes) :
  In c Cls.remotes -> has_method c (Op.send_data data) = true.
Proof.
  intros Hc. unfold Cls.remotes in Hc. each_class Hc; reflexivity.
Qed.

(** X5: on the classes with the extended framing, [send_data] with a code of
    more than 65531 bytes raises [struct.error] and hands nothing over; the
    code is neither truncated nor sent with a wrapped length. *)
Theorem send_data_too_long :
  forall (c : Cls.t) (x : Externals) (data : bytes) (log : list packet),
    In c [Cls.rmminib; Cls.rm4mini; Cls.rm4pro; Cls.rm4] ->
    65531 < Z.of_nat (length data) ->
    call c x (Op.send_data data) log = (log, Raise struct_error).
Proof.
  intros c x data log Hc Hlen.
  assert (Hr : In c Cls.remotes).
  { unfold Cls.remotes. cbn [In] in *. tauto. }
  apply call_raises; [exact Hr | now apply has_send_data |].
  rewrite (self_send_extended c x Hc). cbn [Documented.opcode Documented.payload].
  apply rmminib_send_unpacked, pack_HI_overflow. lia.
Qed.

Lemma send_data_too_long_witness :
  call Cls.rm4 echo (Op.send_data (zeros 65532)) [] = ([], Raise struct_error).
Proof.
  apply (send_data_too_long Cls.rm4 echo (zeros 65532) []).
  - cbn [In]. tauto.
  - unfold zeros. rewrite repeat_length. vm_compute. reflexivity.
Defined.

Lemma unpack_H_inv (b : bytes) (v : Z) :
  struct.unpack_H b = Ok v -> exists b0 b1, b = [b0; b1] /\ v = le_uint [b0; b1].
Proof.
  destruct b as [|b0 [|b1 [|b2 r]]]; try discriminate.
  rewrite unpack_H_le. intros H. injection H as <-. eauto.
Qed.

(** What the extended [_send] returns is shorter than 65532 bytes. *)
Lemma rmminib_send_length x command data log log' out :
  rmminib._send x command data log = (log', Ok out) ->
  Z.of_nat (length out) + 4 < 2 ^ 16.
Proof.
  destruct (struct.pack_HI (Z.of_nat (length data) + 4) command) as [hdr|e] eqn:Hp.
  - rewrite (rmminib_send_run _ _ _ _ _ Hp).
    destruct (send_packet x log 0x6A (hdr ++ data)) as [resp|e]; [|discriminate].
    destruct (check_error x (slice 0x22 0x24 resp)) as [u|e]; [|discriminate].
    destruct (decrypt x (slice_from 0x38 resp)) as [payload|e]; [|discriminate].
    destruct (struct.unpack_H (slice_to 0x2 payload)) as [p_len|e] eqn:Hu; [|discriminate].
    intros H. injection H as _ <-.
    destruct (unpack_H_inv _ _ Hu) as (b0 & b1 & _ & ->).
    pose proof (le_uint_range [b0; b1]) as Hr.
    change (2 ^ (8 * Z.of_nat (length [b0; b1]))) with (2 ^ 16) in Hr.
    unfold slice.
    pose proof (firstn_le_length (Z.to_nat (le_uint [b0; b1] + 2) - Z.to_nat 0x6)
                  (skipn (Z.to_nat 0x6) payload)) as Hl.
    lia.
  - rewrite (rmminib_send_unpacked _ _ _ _ _ Hp). discriminate.
Qed.

Lemma fmap_VBytes_inv (c : M bytes) log log' b :
  fmap VBytes c log = (log', Ok (VBytes b)) -> c log = (log', Ok b).
Proof.
  unfold fmap, bind, ret. destruct (c log) as [l [a|e]]; intros H.
  - now inversion H.
  - discriminate.
Qed.

(** X6: a learned code can always be sent again.  Whatever [check_data]
    returns, on any class, [send_data] of those bytes packs without error and
    hands over one frame that ends with the code, byte for byte: under the
    extended framing what [check_data] returns is always short enough for the
    length field. *)
Theorem learned_code_can_be_sent :
  forall (c : Cls.t) (x : Externals) (log log1 log2 : list packet) (code : bytes),
    In c Cls.remotes ->
    call c x Op.check_data log = (log1, Ok (VBytes code)) ->
    exists hdr,
      fst (call c x (Op.send_data code) log2) = log2 ++ [(0x6A, hdr ++ code)] /\
      (length hdr = 4%nat \/ length hdr = 6%nat).
Proof.
  intros c x log log1 log2 code Hc Hcd.
  rewrite (call_check_data c x Hc) in Hcd. apply fmap_VBytes_inv in Hcd.
  rewrite (call_wire c (Op.send_data code) x log2 Hc (has_send_data c code Hc)).
  cbn [Documented.opcode Documented.payload].
  destruct (remotes_framing c Hc) as [Hl | He].
  - rewrite (self_send_legacy c x Hl).
    exists (struct.le_bytes 4 0x02).
    rewrite (rmmini_send_run _ _ _ _ _ (pack_I_ok 0x02 ltac:(lia))).
    split; [reflexivity | now left].
  - rewrite (self_send_extended c x He) in *.
    pose proof (rmminib_send_length _ _ _ _ _ _ Hcd) as Hlen.
    assert (Hh : 0 <= Z.of_nat (length code) + 4 < 2 ^ 16) by lia.
    exists (struct.le_bytes 2 (Z.of_nat (length code) + 4) ++ struct.le_bytes 4 0x02).
    rewrite (rmminib_send_run _ _ _ _ _ (pack_HI_ok _ 0x02 Hh ltac:(lia))).
    split; [reflexivity | now right].
Qed.

Lemma learned_code_can_be_sent_witness :
  exists hdr,
    fst (call Cls.rm4mini (canned (raw [x06; x00; x04; x00; x00; x00; x26; x00]))
           (Op.send_data [x26; x00]) [])
      = [] ++ [(0x6A, hdr ++ [x26; x00])] /\
    (length hdr = 4%nat \/ length hdr = 6%nat).
Proof.
  apply (learned_code_can_be_sent Cls.rm4mini
           (canned (raw [x06; x00; x04; x00; x00; x00; x26; x00]))
           [] [(0x6A, [x04; x00; x04; x00; x00; x00])] []).
  - unfold Cls.remotes. cbn [In]. tauto.
  - reflexivity.
Defined.

(** ** Answers that are too short or malformed *)

Lemma push_raise (c : Z) (r : result str) (e : Exn) :
  utf8.push c r = Raise e -> r = Raise e.
Proof. destruct r; [discriminate | exact (fun H => H)]. Qed.

Lemma decode_raise_bounded (n : nat) :
  forall (l : bytes) (e : Exn),
    (length l <= n)%nat -> utf8.decode l = Raise e -> e = UnicodeDecodeError.
Proof.
  induction n as [|n IH]; intros l e Hl; destruct l as [|b0 r0];
    try discriminate; cbn [length] in Hl; [lia|].
  cbn [utf8.decode].
  repeat match goal with
         | |- context [if ?c then _ else _] => destruct c
         | |- context [match ?l with [] => _ | _ :: _ => _ end] => destruct l
         end;
    intros H; try (now inversion H);
    apply push_raise in H; apply IH in H; try exact H; cbn [length] in Hl; lia.
Qed.

(** [bytes.decode()] raises nothing but UnicodeDecodeError. *)
Lemma decode_raise (l : bytes) (e : Exn) :
  utf8.decode l = Raise e -> e = UnicodeDecodeError.
Proof. apply (decode_raise_bounded (length l)). lia. Qed.

Lemma short_of_two (resp : bytes) :
  (length resp < 2)%nat -> struct.unpack_bb (slice_to 0x2 resp) = Raise struct_error.
Proof.
  rewrite slice_to_2. destruct resp as [|b0 [|b1 r]]; cbn [length]; intros H;
    try reflexivity; lia.
Qed.

Lemma two_or_more (resp : bytes) :
  (2 <= length resp)%nat -> exists b0 b1 r, resp = b0 :: b1 :: r.
Proof.
  destruct resp as [|b0 [|b1 r]]; cbn [length]; intros H; try lia. eauto.
Qed.

Lemma index_short {A} (l : list A) (i : Z) :
  (length l <= Z.to_nat i)%nat -> index l i = Raise IndexError.
Proof.
  intros H. unfold index. now rewrite (proj2 (nth_error_None l (Z.to_nat i)) H).
Qed.

(** The status parse on a logical payload, as a function of the payload. *)
Lemma rmmini_fetch_data_after (s : Send) log log' resp :
  s 0x1 [] log = (log', Ok resp) ->
  rmmini.fetch_data s log =
    (log',
     match rmmini.name_of resp with
     | Ok name =>
         match rmmini.is_locked_of resp with
         | Ok k => Ok [("name"%string, AStr name); ("is_locked"%string, ABool k)]
         | Raise e => Raise e
         end
     | Raise e => Raise e
     end).
Proof.
  intros Hs. unfold rmmini.fetch_data.
  rewrite (bind_ok _ _ _ _ _ Hs), lift_bind.
  destruct (rmmini.name_of resp) as [name|e]; [|reflexivity].
  rewrite lift_bind. destruct (rmmini.is_locked_of resp); reflexivity.
Qed.

Lemma rmpro_fetch_data_after (s : Send) log log' resp :
  s 0x1 [] log = (log', Ok resp) ->
  rmpro.fetch_data s log =
    (log',
     match rmpro.temperature_of resp with
     | Ok t =>
         match rmmini.name_of resp with
         | Ok name =>
             match rmmini.is_locked_of resp with
             | Ok k => Ok [("temperature"%string, AFloat t);
                           ("name"%string, AStr name);
                           ("is_locked"%string, ABool k)]
             | Raise e => Raise e
             end
         | Raise e => Raise e
         end
     | Raise e => Raise e
     end).
Proof.
  intros Hs. unfold rmpro.fetch_data.
  rewrite (bind_ok _ _ _ _ _ Hs), lift_bind.
  destruct (rmpro.temperature_of resp) as [t|e]; [|reflexivity].
  rewrite lift_bind.
  destruct (rmmini.name_of resp) as [name|e]; [|reflexivity].
  rewrite lift_bind. destruct (rmmini.is_locked_of resp); reflexivity.
Qed.

Lemma fmap_raise {A B} (f : A -> B) (c : M A) log log' e :
  c log = (log', Raise e) -> fmap f c log = (log', Raise e).
Proof. intros H. unfold fmap. now apply bind_raise. Qed.

(** X7: how [fetch_data] fails on a bad answer, once [_send] has returned the
    logical payload.  On the classes whose status carries a temperature
    (rmpro, rm4pro, rm, rm4) a payload of fewer than two bytes raises
    [struct.error].  Otherwise a name region that is not valid UTF-8 raises
    UnicodeDecodeError, however long the payload; and when the name decodes, a
    payload of fewer than 0x88 bytes raises IndexError at [resp[0x87]]: no
    partial dict is returned. *)
Theorem fetch_data_failures :
  forall (c : Cls.t) (x : Externals) (log log' : list packet) (resp piece : bytes),
    In c Cls.remotes ->
    self__send c x 0x1 [] log = (log', Ok resp) ->
    up_to_nul (skipn 0x48 resp) piece ->
    (In c [Cls.rmpro; Cls.rm4pro; Cls.rm; Cls.rm4] ->
     (length resp < 2)%nat ->
     call c x Op.fetch_data log = (log', Raise struct_error))
    /\
    (In c [Cls.rmmini; Cls.rmminib; Cls.rm4mini] \/ (2 <= length resp)%nat ->
     forall e, utf8.decode piece = Raise e ->
     call c x Op.fetch_data log = (log', Raise UnicodeDecodeError))
    /\
    (In c [Cls.rmmini; Cls.rmminib; Cls.rm4mini] \/ (2 <= length resp)%nat ->
     forall name, utf8.decode piece = Ok name ->
     (length resp < 0x88)%nat ->
     call c x Op.fetch_data log = (log', Raise IndexError)).
Proof.
  intros c x log log' resp piece Hc Hs Hp.
  pose proof (name_of_up_to_nul resp piece Hp) as Hname.
  assert (Hcases : In c [Cls.rmmini; Cls.rmminib; Cls.rm4mini] \/
                   In c [Cls.rmpro; Cls.rm4pro; Cls.rm; Cls.rm4]).
  { unfold Cls.remotes in Hc. cbn [In] in *. tauto. }
  assert (Hlock : (length resp < 0x88)%nat ->
                  rmmini.is_locked_of resp = Raise IndexError).
  { intros Hl. unfold rmmini.is_locked_of. rewrite index_short; [reflexivity|].
    change (Z.to_nat 0x87) with 0x87%nat. lia. }
  split; [|split].
  - intros Hpro Hlen. rewrite (call_fetch_data_pro c x Hpro).
    apply fmap_raise. rewrite (rmpro_fetch_data_after _ _ _ _ Hs).
    unfold rmpro.temperature_of. now rewrite short_of_two.
  - intros Hor e He. apply decode_raise in He as He'. subst e.
    destruct Hcases as [Hmini | Hpro].
    + rewrite (call_fetch_data_mini c x Hmini). apply fmap_raise.
      rewrite (rmmini_fetch_data_after _ _ _ _ Hs), Hname, He. reflexivity.
    + destruct Hor as [Hmini | Hlen].
      { exfalso. cbn [In] in *.
        repeat match goal with H : _ \/ _ |- _ => destruct H end;
          subst; try discriminate; contradiction. }
      rewrite (call_fetch_data_pro c x Hpro). apply fmap_raise.
      destruct (two_or_more resp Hlen) as (b0 & b1 & r & ->).
      rewrite (rmpro_fetch_data_after _ _ _ _ Hs), temperature_of_two, Hname, He.
      reflexivity.
  - intros Hor name He Hlen.
    destruct Hcases as [Hmini | Hpro].
    + rewrite (call_fetch_data_mini c x Hmini). apply fmap_raise.
      rewrite (rmmini_fetch_data_after _ _ _ _ Hs), Hname, He, (Hlock Hlen).
      reflexivity.
    + destruct Hor as [Hmini | Hlen2].
      { exfalso. cbn [In] in *.
        repeat match goal with H : _ \/ _ |- _ => destruct H end;
          subst; try discriminate; contradiction. }
      rewrite (call_fetch_data_pro c x Hpro). apply fmap_raise.
      destruct (two_or_more resp Hlen2) as (b0 & b1 & r & ->).
      rewrite (rmpro_fetch_data_after _ _ _ _ Hs), temperature_of_two, Hname, He.
      rewrite (Hlock Hlen). reflexivity.
Qed.

Lemma fetch_data_failures_witness :
  call Cls.rmpro (canned (raw [x00; x00; x00; x00; x19])) Op.fetch_data []
    = ([(0x6A, [x01; x00; x00; x00])], Raise struct_error)
  /\
  call Cls.rmmini (canned (raw (zeros 4 ++ zeros 0x48 ++ [xff] ++ zeros 0x3f)))
       Op.fetch_data []
    = ([(0x6A, [x01; x00; x00; x00])], Raise UnicodeDecodeError)
  /\
  call Cls.rmmini (canned (raw (zeros 4 ++ zeros 0x48 ++ Living_Room))) Op.fetch_data []
    = ([(0x6A, [x01; x00; x00; x00])], Raise IndexError).
Proof.
  split; [|split].
  - refine (proj1 (fetch_data_failures Cls.rmpro
                     (canned (raw [x00; x00; x00; x00; x19])) [] _ [x19] [] _ _ _) _ _).
    + unfold Cls.remotes. cbn [In]. tauto.
    + reflexivity.
    + split; [intros [] | left; reflexivity].
    + cbn [In]. tauto.
    + cbn [length]. lia.
  - refine (proj1 (proj2 (fetch_data_failures Cls.rmmini
                     (canned (raw (zeros 4 ++ zeros 0x48 ++ [xff] ++ zeros 0x3f))) [] _
                     (zeros 0x48 ++ [xff] ++ zeros 0x3f) [xff] _ _ _))
              _ UnicodeDecodeError _).
    + unfold Cls.remotes. cbn [In]. tauto.
    + reflexivity.
    + split.
      * cbn [In]. intros [H | H]; [discriminate H | exact H].
      * right. exists (zeros 0x3e). reflexivity.
    + left. cbn [In]. tauto.
    + reflexivity.
  - refine (proj2 (proj2 (fetch_data_failures Cls.rmmini
                     (canned (raw (zeros 4 ++ zeros 0x48 ++ Living_Room))) [] _
                     (zeros 0x48 ++ Living_Room) Living_Room _ _ _))
              _ (str_of_string "Living Room") _ _).
    + unfold Cls.remotes. cbn [In]. tauto.
    + reflexivity.
    + split.
      * vm_compute. intuition discriminate.
      * left. reflexivity.
    + left. cbn [In]. tauto.
    + reflexivity.
    + vm_compute. lia.
Defined.

Lemma call_check_frequency (c : Cls.t) (x : Externals) :
  has_method c Op.check_frequency = true ->
  call c x Op.check_frequency = fmap VBool (rmpro.check_frequency (self__send c x)).
Proof.
  intros Hm. destruct c; try (vm_compute in Hm; discriminate Hm); reflexivity.
Qed.

(** X8: how the sensor and frequency queries fail on a short answer, once
    [_send] has returned the logical payload.  [check_sensors] raises
    [struct.error] on fewer than two bytes, on both generations; on
    generation B (rm4mini, rm4pro, rm4) two or three bytes raise IndexError,
    since the humidity bytes are missing, and no temperature is returned
    alone.  [check_frequency] raises IndexError on an empty payload. *)
Theorem short_sensor_answers :
  forall (c : Cls.t) (x : Externals) (log log' : list packet) (resp : bytes),
    (In c [Cls.rmpro; Cls.rm] ->
     self__send c x 0x1 [] log = (log', Ok resp) ->
     (length resp < 2)%nat ->
     call c x Op.check_sensors log = (log', Raise struct_error))
    /\
    (In c [Cls.rm4mini; Cls.rm4pro; Cls.rm4] ->
     self__send c x 0x24 [] log = (log', Ok resp) ->
     ((length resp < 2)%nat ->
      call c x Op.check_sensors log = (log', Raise struct_error)) /\
     ((2 <= length resp < 4)%nat ->
      call c x Op.check_sensors log = (log', Raise IndexError)))
    /\
    (has_method c Op.check_frequency = true ->
     self__send c x 0x1A [] log = (log', Ok []) ->
     call c x Op.check_frequency log = (log', Raise IndexError)).
Proof.
  intros c x log log' resp. split; [|split].
  - intros Hc Hs Hlen. rewrite (call_check_sensors_A c x Hc). apply fmap_raise.
    unfold rmpro.check_sensors, rmpro.temperature_of.
    rewrite (bind_ok _ _ _ _ _ Hs), lift_bind. now rewrite short_of_two.
  - intros Hc Hs. split.
    + intros Hlen. rewrite (call_check_sensors_B c x Hc). apply fmap_raise.
      unfold rm4mini.check_sensors.
      rewrite (bind_ok _ _ _ _ _ Hs), lift_bind. now rewrite short_of_two.
    + intros Hlen. rewrite (call_check_sensors_B c x Hc). apply fmap_raise.
      unfold rm4mini.check_sensors.
      rewrite (bind_ok _ _ _ _ _ Hs), lift_bind.
      destruct resp as [|b0 [|b1 [|b2 [|b3 r]]]]; cbn [length] in Hlen; try lia;
        reflexivity.
  - intros Hm Hs. rewrite (call_check_frequency c x Hm). apply fmap_raise.
    unfold rmpro.check_frequency. rewrite (bind_ok _ _ _ _ _ Hs). reflexivity.
Qed.

Lemma short_sensor_answers_witness :
  call Cls.rm (canned (raw [x00; x00; x00; x00; x19])) Op.check_sensors []
    = ([(0x6A, [x01; x00; x00; x00])], Raise struct_error)
  /\
  call Cls.rm4pro (canned (raw [x07; x00; x00; x00; x00; x00; x19; x02; x3c]))
       Op.check_sensors []
    = ([(0x6A, [x04; x00; x24; x00; x00; x00])], Raise IndexError)
  /\
  call Cls.rmpro (canned (raw [x00; x00; x00; x00])) Op.check_frequency []
    = ([(0x6A, [x1a; x00; x00; x00])], Raise IndexError).
Proof.
  split; [|split].
  - refine (proj1 (short_sensor_answers Cls.rm
                     (canned (raw [x00; x00; x00; x00; x19])) [] _ [x19]) _ _ _).
    + cbn [In]. tauto.
    + reflexivity.
    + cbn [length]. lia.
  - refine (proj2 (proj1 (proj2 (short_sensor_answers Cls.rm4pro
                     (canned (raw [x07; x00; x00; x00; x00; x00; x19; x02; x3c])) [] _
                     [x19; x02; x3c])) _ _) _).
    + cbn [In]. tauto.
    + reflexivity.
    + cbn [length]. lia.
  - refine (proj2 (proj2 (short_sensor_answers Cls.rmpro
                     (canned (raw [x00; x00; x00; x00])) [] _ [])) _ _).
    + reflexivity.
    + reflexivity.
Defined.

(** ** [check_temperature] and [check_humidity] *)

Lemma keys_getitem (d : dict) (k : string) :
  In k (map fst d) -> exists v, getitem d k = Ok v.
Proof.
  induction d as [|[k' v] r IH]; cbn [map fst In getitem]; [intros []|].
  intros [-> | Hin].
  - rewrite String.eqb_refl. eauto.
  - destruct (String.eqb k' k); eauto.
Qed.

Lemma rm4mini_check_sensors_keys (s : Send) log log' d :
  rm4mini.check_sensors s log = (log', Ok d) ->
  map fst d = ["temperature"%string; "humidity"%string].
Proof.
  unfold rm4mini.check_sensors, bind, lift, ret.
  destruct (s 0x24 [] log) as [l [resp|e]]; [|discriminate].
  destruct (struct.unpack_bb (slice_to 0x2 resp)) as [t|e]; [|discriminate].
  destruct (index resp 0x2) as [r2|e]; [|discriminate].
  destruct (index resp 0x3) as [r3|e]; [|discriminate].
  intros H. inversion H. reflexivity.
Qed.

(** The sensor reading of a class, whichever [check_sensors] it resolves to. *)
Lemma self_check_sensors_cases (c : Cls.t) (x : Externals) :
  has_method c Op.check_sensors = true ->
  call c x Op.check_sensors = fmap VDict (self_check_sensors c x) /\
  (self_check_sensors c x = rmpro.check_sensors (self__send c x) \/
   self_check_sensors c x = rm4mini.check_sensors (self__send c x)).
Proof.
  intros Hm. destruct c; try (vm_compute in Hm; discriminate Hm);
    (split; [reflexivity | (left; reflexivity) || (right; reflexivity)]).
Qed.

Lemma call_check_temperature (c : Cls.t) (x : Externals) log :
  has_method c Op.check_temperature = true ->
  has_method c Op.check_sensors = true /\
  call c x Op.check_temperature log =
    fmap VAtom (d <- self_check_sensors c x ;; lift (getitem d "temperature")) log.
Proof.
  intros Hm. destruct c; try (vm_compute in Hm; discriminate Hm);
    (split; reflexivity).
Qed.

Lemma call_check_humidity (c : Cls.t) (x : Externals) log :
  has_method c Op.check_humidity = true ->
  has_method c Op.check_sensors = true /\
  self_check_sensors c x = rm4mini.check_sensors (self__send c x) /\
  call c x Op.check_humidity log =
    fmap VAtom (d <- self_check_sensors c x ;; lift (getitem d "humidity")) log.
Proof.
  intros Hm. destruct c; try (vm_compute in Hm; discriminate Hm);
    (split; [|split]; reflexivity).
Qed.

(** X9: [check_temperature] and [check_humidity] are projections of
    [check_sensors] of the same class.  Where the method exists, it hands over
    what [check_sensors] hands over; when [check_sensors] returns a dict it
    returns the "temperature" (the "humidity") entry of that dict, and the
    key is always there, so it never raises KeyError; when [check_sensors]
    raises, it raises the same. *)
Theorem sensor_projections :
  forall (c : Cls.t) (x : Externals) (log log' : list packet),
    (has_method c Op.check_temperature = true ->
     (forall d,
         call c x Op.check_sensors log = (log', Ok (VDict d)) ->
         exists t,
           getitem d "temperature" = Ok t /\
           call c x Op.check_temperature log = (log', Ok (VAtom t))) /\
     (forall e,
         call c x Op.check_sensors log = (log', Raise e) ->
         call c x Op.check_temperature log = (log', Raise e)))
    /\
    (has_method c Op.check_humidity = true ->
     (forall d,
         call c x Op.check_sensors log = (log', Ok (VDict d)) ->
         exists h,
           getitem d "humidity" = Ok h /\
           call c x Op.check_humidity log = (log', Ok (VAtom h))) /\
     (forall e,
         call c x Op.check_sensors log = (log', Raise e) ->
         call c x Op.check_humidity log = (log', Raise e))).
Proof.
  intros c x log log'.
  assert (Hinv : forall (m : M dict) e,
             fmap VDict m log = (log', Raise e) -> m log = (log', Raise e)).
  { intros m e. unfold fmap, bind, ret.
    destruct (m log) as [l [a|e']]; intros H; inversion H; reflexivity. }
  split.
  - intros Hm. destruct (call_check_temperature c x log Hm) as [Hs Hct].
    destruct (self_check_sensors_cases c x Hs) as [Hcs Hwhich].
    rewrite Hct, Hcs. split.
    + intros d Hd. apply fmap_VDict_inv in Hd.
      assert (Hk : In "temperature"%string (map fst d)).
      { destruct Hwhich as [Hw | Hw]; rewrite Hw in Hd.
        - rewrite (rmpro_check_sensors_keys _ _ _ _ Hd). now left.
        - rewrite (rm4mini_check_sensors_keys _ _ _ _ Hd). now left. }
      destruct (keys_getitem d _ Hk) as [t Ht].
      exists t. split; [exact Ht|].
      apply fmap_ok. rewrite (bind_ok _ _ _ _ _ Hd). unfold lift. now rewrite Ht.
    + intros e He. apply Hinv in He. apply fmap_raise. now apply bind_raise.
  - intros Hm. destruct (call_check_humidity c x log Hm) as (Hs & Hw & Hch).
    destruct (self_check_sensors_cases c x Hs) as [Hcs _].
    rewrite Hch, Hcs. split.
    + intros d Hd. apply fmap_VDict_inv in Hd.
      assert (Hk : In "humidity"%string (map fst d)).
      { rewrite Hw in Hd. rewrite (rm4mini_check_sensors_keys _ _ _ _ Hd).
        right. now left. }
      destruct (keys_getitem d _ Hk) as [h Hh].
      exists h. split; [exact Hh|].
      apply fmap_ok. rewrite (bind_ok _ _ _ _ _ Hd). unfold lift. now rewrite Hh.
    + intros e He. apply Hinv in He. apply fmap_raise. now apply bind_raise.
Qed.

Lemma sensor_projections_witness :
  (exists t,
      getitem [("temperature"%string, AFloat 25.02);
               ("humidity"%string, AFloat 60.05)] "temperature" = Ok t /\
      call Cls.rm4pro (canned (raw sensors_extended_sample)) Op.check_temperature []
        = ([(0x6A, [x04; x00; x24; x00; x00; x00])], Ok (VAtom t)))
  /\
  (exists h,
      getitem [("temperature"%string, AFloat 25.02);
               ("humidity"%string, AFloat 60.05)] "humidity" = Ok h /\
      call Cls.rm4pro (canned (raw sensors_extended_sample)) Op.check_humidity []
        = ([(0x6A, [x04; x00; x24; x00; x00; x00])], Ok (VAtom h))).
Proof.
  split.
  - refine (proj1 (proj1 (sensor_projections Cls.rm4pro
                     (canned (raw sensors_extended_sample)) [] _) _) _ _).
    + reflexivity.
    + vm_compute. reflexivity.
  - refine (proj1 (proj2 (sensor_projections Cls.rm4pro
                     (canned (raw sensors_extended_sample)) [] _) _) _ _).
    + reflexivity.
    + vm_compute. reflexivity.
Defined.

(** ** The status of the RM4 classes *)

(** X10: [fetch_data] is not overridden on the RM4 classes.  On rm4pro and
    rm4 it is the one of rmpro, found before rmmini's along the MRO: its
    temperature is b0 + b1/10, while [check_sensors] of the same classes
    scales the same two bytes by 1/100.  On rm4mini (as on rmmini and rmminib)
    it is the one of rmmini and the dict has no temperature, although the
    flags of rm4mini hold CHECK_TEMPERATURE. *)
Theorem status_of_the_rm4_classes :
  forall (c : Cls.t) (x : Externals) (log log' : list packet),
    (In c [Cls.rm4pro; Cls.rm4] ->
     forall b0 b1 r piece name k,
       self__send c x 0x1 [] log = (log', Ok (b0 :: b1 :: r)) ->
       up_to_nul (skipn 0x48 (b0 :: b1 :: r)) piece ->
       utf8.decode piece = Ok name ->
       nth_error (b0 :: b1 :: r) 0x87 = Some k ->
       call c x Op.fetch_data log =
         (log', Ok (VDict
            [("temperature"%string,
              AFloat (float_of_int (struct.signed b0)
                      + float_of_int (struct.signed b1) / 10)%float);
             ("name"%string, AStr name);
             ("is_locked"%string, ABool (negb (Byte.eqb k x00)))])))
    /\
    (In c [Cls.rmmini; Cls.rmminib; Cls.rm4mini] ->
     forall d,
       call c x Op.fetch_data log = (log', Ok (VDict d)) ->
       map fst d = ["name"%string; "is_locked"%string]).
Proof.
  intros c x log log'. split.
  - intros Hc b0 b1 r piece name k Hs Hp Hn Hk.
    rewrite (call_fetch_data_pro c x); [|cbn [In] in *; tauto].
    apply fmap_ok.
    rewrite (rmpro_fetch_data_after _ _ _ _ Hs), temperature_of_two.
    rewrite (name_of_up_to_nul _ _ Hp), Hn, (is_locked_of_byte _ _ Hk).
    reflexivity.
  - intros Hc d Hd. rewrite (call_fetch_data_mini c x Hc) in Hd.
    apply fmap_VDict_inv in Hd. revert Hd.
    unfold rmmini.fetch_data, bind, lift, ret.
    destruct (self__send c x 0x1 [] log) as [l [resp|e]]; [|discriminate].
    destruct (rmmini.name_of resp) as [n|e]; [|discriminate].
    destruct (rmmini.is_locked_of resp) as [k|e]; [|discriminate].
    intros H. inversion H. reflexivity.
Qed.

Lemma status_of_the_rm4_classes_witness :
  call Cls.rm4pro
       (canned (raw ([x8c; x00; x00; x00; x00; x00; x19; x02]
                     ++ zeros 0x46 ++ Living_Room ++ zeros 0x35)))
       Op.fetch_data [] =
    ([(0x6A, [x04; x00; x01; x00; x00; x00])],
     Ok (VDict
        [("temperature"%string,
          AFloat (float_of_int (struct.signed x19)
                  + float_of_int (struct.signed x02) / 10)%float);
         ("name"%string, AStr (str_of_string "Living Room"));
         ("is_locked"%string, ABool (negb (Byte.eqb x00 x00)))])).
Proof.
  refine (proj1 (status_of_the_rm4_classes Cls.rm4pro
                   (canned (raw ([x8c; x00; x00; x00; x00; x00; x19; x02]
                                 ++ zeros 0x46 ++ Living_Room ++ zeros 0x35)))
                   [] _) _ x19 x02 (zeros 0x46 ++ Living_Room ++ zeros 0x35)
            Living_Room _ x00 _ _ _ _).
  - cbn [In]. tauto.
  - vm_compute. reflexivity.
  - split.
    + vm_compute. intuition discriminate.
    + right. exists (zeros 0x34). vm_compute. reflexivity.
  - reflexivity.
  - vm_compute. reflexivity.
Defined.

(** ** Flags, methods and inheritance *)

(** X11: the flags of a class say which methods it has.  Every class has
    LEARN_IR_CODE and SEND_IR_CODE and the four methods of rmmini; it has
    [check_sensors] and [check_temperature] exactly when its flags hold
    CHECK_TEMPERATURE, [check_humidity] exactly when they hold CHECK_HUMIDITY,
    and the four frequency methods exactly when they hold LEARN_RF_CODE, which
    always comes with SEND_RF_CODE. *)
Theorem flags_match_methods :
  forall (c : Cls.t) (flags : Z),
    In c Cls.remotes ->
    supported_features c = Ok flags ->
    (Features.mem Features.LEARN_IR_CODE flags = true /\
     Features.mem Features.SEND_IR_CODE flags = true /\
     has_method c Op.fetch_data = true /\
     has_method c Op.enter_learning = true /\
     has_method c Op.check_data = true /\
     forall data, has_method c (Op.send_data data) = true)
    /\
    (has_method c Op.check_sensors = Features.mem Features.CHECK_TEMPERATURE flags /\
     has_method c Op.check_temperature = Features.mem Features.CHECK_TEMPERATURE flags /\
     has_method c Op.check_humidity = Features.mem Features.CHECK_HUMIDITY flags)
    /\
    (has_method c Op.sweep_frequency = Features.mem Features.LEARN_RF_CODE flags /\
     has_method c Op.check_frequency = Features.mem Features.LEARN_RF_CODE flags /\
     has_method c Op.find_rf_packet = Features.mem Features.LEARN_RF_CODE flags /\
     has_method c Op.cancel_sweep_frequency = Features.mem Features.LEARN_RF_CODE flags /\
     Features.mem Features.SEND_RF_CODE flags = Features.mem Features.LEARN_RF_CODE flags).
Proof.
  intros c flags Hc Hs. unfold Cls.remotes in Hc.
  each_class Hc; vm_compute in Hs; injection Hs as <-;
    repeat split; reflexivity.
Qed.

Lemma flags_match_methods_witness :
  has_method Cls.rm4mini Op.check_sensors = Features.mem Features.CHECK_TEMPERATURE 51 /\
  has_method Cls.rm4mini Op.check_temperature
    = Features.mem Features.CHECK_TEMPERATURE 51 /\
  has_method Cls.rm4mini Op.check_humidity = Features.mem Features.CHECK_HUMIDITY 51.
Proof.
  refine (proj1 (proj2 (flags_match_methods Cls.rm4mini 51 _ _))).
  - unfold Cls.remotes. cbn [In]. tauto.
  - reflexivity.
Defined.

(** X12: a class loses nothing of its bases.  Every method a base has, the
    class has; every flag in the flags of a base is in the flags of the class,
    although each [supported_features] is written out in full and not
    computed from the base's. *)
Theorem subclasses_keep_methods_and_flags :
  forall (c b : Cls.t),
    In c Cls.remotes ->
    In b (Cls.bases c) ->
    (forall o, has_method b o = true -> has_method c o = true) /\
    (forall fb fc,
        supported_features b = Ok fb ->
        supported_features c = Ok fc ->
        Z.land fc fb = fb).
Proof.
  intros c b Hc Hb. unfold Cls.remotes in Hc.
  each_class Hc; cbn [Cls.bases In] in Hb;
    repeat (destruct Hb as [<- | Hb]); try contradiction;
    (split;
     [ intros o; destruct o; vm_compute; auto
     | intros fb fc Hfb Hfc; vm_compute in Hfb, Hfc;
       try discriminate Hfb;
       injection Hfb as <-; injection Hfc as <-; reflexivity ]).
Qed.

Lemma subclasses_keep_methods_and_flags_witness :
  (forall o, has_method Cls.rmpro o = true -> has_method Cls.rm4pro o = true) /\
  (forall fb fc,
      supported_features Cls.rmpro = Ok fb ->
      supported_features Cls.rm4pro = Ok fc ->
      Z.land fc fb = fb).
Proof.
  apply (subclasses_keep_methods_and_flags Cls.rm4pro Cls.rmpro).
  - unfold Cls.remotes. cbn [In]. tauto.
  - cbn [Cls.bases In]. tauto.
Defined.

Lemma flags_disjoint (a f : Z) :
  In a Features.all -> In f Features.all -> a = f \/ Z.land a f = 0.
Proof.
  unfold Features.all. cbn [In]. intros Ha Hf.
  repeat match goal with H : _ \/ _ |- _ => destruct H end;
    subst; try contradiction; (left; reflexivity) || (right; reflexivity).
Qed.

Lemma lor_land_absorb (f r : Z) : Z.lor f (Z.land r f) = f.
Proof.
  apply Z.bits_inj'. intros n _.
  rewrite Z.lor_spec, Z.land_spec.
  destruct (Z.testbit f n), (Z.testbit r n); reflexivity.
Qed.

(** X13: the six features are independent bits.  For every combination of
    features joined with [|], as the [supported_features] properties do,
    a feature is in the combination exactly when it is one of those joined. *)
Theorem flags_are_a_set :
  forall (f : Z) (l : list Z),
    In f Features.all ->
    incl l Features.all ->
    (Features.mem f (fold_right Z.lor 0 l) = true <-> In f l).
Proof.
  intros f l Hf. induction l as [|a r IH]; intros Hl.
  - cbn [fold_right In]. split; [|intros []].
    unfold Features.all in Hf. cbn [In] in Hf.
    repeat match goal with H : _ \/ _ |- _ => destruct H end;
      subst; try contradiction; vm_compute; discriminate.
  - assert (Ha : In a Features.all) by (apply Hl; now left).
    assert (Hr : incl r Features.all) by (intros z Hz; apply Hl; now right).
    cbn [fold_right In]. unfold Features.mem in *.
    rewrite Z.land_lor_distr_l.
    destruct (flags_disjoint a f Ha Hf) as [-> | H0].
    + rewrite Z.land_diag, lor_land_absorb, Z.eqb_refl. tauto.
    + rewrite H0, Z.lor_0_l, (IH Hr). split; [tauto|].
      intros [-> | Hin]; [|exact Hin].
      exfalso. rewrite Z.land_diag in H0. subst f.
      unfold Features.all in Hf. cbn [In] in Hf.
      repeat match goal with H : _ \/ _ |- _ => destruct H end;
        try discriminate; contradiction.
Qed.

Lemma flags_are_a_set_witness :
  Features.mem Features.CHECK_HUMIDITY
    (fold_right Z.lor 0 [Features.LEARN_IR_CODE; Features.SEND_IR_CODE;
                         Features.CHECK_TEMPERATURE; Features.CHECK_HUMIDITY]) = true
  <-> In Features.CHECK_HUMIDITY
        [Features.LEARN_IR_CODE; Features.SEND_IR_CODE;
         Features.CHECK_TEMPERATURE; Features.CHECK_HUMIDITY].
Proof.
  apply flags_are_a_set.
  - unfold Features.all. cbn [In]. tauto.
  - intros z Hz. unfold Features.all. cbn [In] in *. tauto.
Defined.

(** ** Names in ASCII *)

Lemma decode_ascii (l : bytes) :
  Forall (fun b => Z_of_byte b < 0x80) l -> utf8.decode l = Ok (map Z_of_byte l).
Proof.
  induction 1 as [|b r Hb _ IH]; [reflexivity|].
  cbn [utf8.decode map]. rewrite (proj2 (Z.ltb_lt _ _) Hb), IH. reflexivity.
Qed.

(** X14: a name in ASCII comes back character for character.  When the bytes
    of the name region up to the first NUL are all below 0x80 and the payload
    reaches the lock byte, [fetch_data] succeeds on every class and its name
    has one code point per byte, equal to the byte. *)
Theorem ascii_names :
  forall (c : Cls.t) (x : Externals) (log log' : list packet)
         (resp piece : bytes) (k : byte),
    In c Cls.remotes ->
    self__send c x 0x1 [] log = (log', Ok resp) ->
    up_to_nul (skipn 0x48 resp) piece ->
    Forall (fun b => Z_of_byte b < 0x80) piece ->
    nth_error resp 0x87 = Some k ->
    exists d,
      call c x Op.fetch_data log = (log', Ok (VDict d)) /\
      getitem d "name" = Ok (AStr (map Z_of_byte piece)).
Proof.
  intros c x log log' resp piece k Hc Hs Hp Ha Hk.
  assert (Hname : rmmini.name_of resp = Ok (map Z_of_byte piece)).
  { rewrite (name_of_up_to_nul resp piece Hp). now apply decode_ascii. }
  destruct (fetch_data_fields c x log log' resp _ k Hc Hs Hname Hk) as (d & Hd & Hn & _).
  now exists d.
Qed.

Lemma ascii_names_witness :
  exists d,
    call Cls.rmminib (canned (raw ([x8c; x00; x00; x00; x00; x00] ++ name_sample)))
         Op.fetch_data []
      = ([(0x6A, [x04; x00; x01; x00; x00; x00])], Ok (VDict d)) /\
    getitem d "name" = Ok (AStr (map Z_of_byte Living_Room)).
Proof.
  refine (ascii_names Cls.rmminib
            (canned (raw ([x8c; x00; x00; x00; x00; x00] ++ name_sample))) [] _
            name_sample Living_Room x00 _ _ _ _ _).
  - unfold Cls.remotes. cbn [In]. tauto.
  - vm_compute. reflexivity.
  - split.
    + vm_compute. intuition discriminate.
    + right. exists (zeros 0x34). vm_compute. reflexivity.
  - repeat constructor.
  - vm_compute. reflexivity.
Defined.

(** ** The range of the sensor values *)

Lemma all_bytes_complete (b : byte) : In b all_bytes.
Proof.
  assert (H : existsb (Byte.eqb b) all_bytes = true)
    by (destruct b; vm_compute; reflexivity).
  apply existsb_exists in H. destruct H as (b' & Hin & Heq).
  apply byte_eqb_eq in Heq. now subst.
Qed.

Lemma ranges_checked :
  forallb (fun b0 =>
    forallb (fun b1 =>
      float_within (-140.8) 139.7
        (fixed_point (struct.signed b0) (struct.signed b1) 10)
      && float_within (-129.28) 128.27
           (fixed_point (struct.signed b0) (struct.signed b1) 100)
      && float_within 0 257.55
           (fixed_point (Z_of_byte b0) (Z_of_byte b1) 100))
      all_bytes)
    all_bytes = true.
Proof. vm_compute. reflexivity. Qed.

Lemma ranges (b0 b1 : byte) :
  float_within (-140.8) 139.7
    (fixed_point (struct.signed b0) (struct.signed b1) 10) = true /\
  float_within (-129.28) 128.27
    (fixed_point (struct.signed b0) (struct.signed b1) 100) = true /\
  float_within 0 257.55
    (fixed_point (Z_of_byte b0) (Z_of_byte b1) 100) = true.
Proof.
  pose proof ranges_checked as H.
  rewrite forallb_forall in H. specialize (H b0 (all_bytes_complete b0)).
  rewrite forallb_forall in H. specialize (H b1 (all_bytes_complete b1)).
  apply andb_true_iff in H. destruct H as [H H3].
  apply andb_true_iff in H. destruct H as [H1 H2]. auto.
Qed.

Lemma unpack_bb_inv (l : bytes) (t : Z * Z) :
  struct.unpack_bb (slice_to 0x2 l) = Ok t ->
  exists b0 b1, t = (struct.signed b0, struct.signed b1).
Proof.
  rewrite slice_to_2. destruct l as [|b0 [|b1 r]]; try discriminate.
  intros H. injection H as <-. eauto.
Qed.

(** X15: the sensor readings have a fixed shape and range.  A dict returned
    by [check_sensors] on generation A is exactly one temperature between
    -140.8 and 139.7; on generation B it is a temperature between -129.28 and
    128.27 followed by a humidity between 0 and 257.55.  The values are never
    NaN or infinite, and nothing confines the humidity to 100. *)
Theorem sensor_value_ranges :
  forall (c : Cls.t) (x : Externals) (log log' : list packet) (d : dict),
    call c x Op.check_sensors log = (log', Ok (VDict d)) ->
    (In c [Cls.rmpro; Cls.rm] ->
     exists t,
       d = [("temperature"%string, AFloat t)] /\
       float_within (-140.8) 139.7 t = true)
    /\
    (In c [Cls.rm4mini; Cls.rm4pro; Cls.rm4] ->
     exists t h,
       d = [("temperature"%string, AFloat t); ("humidity"%string, AFloat h)] /\
       float_within (-129.28) 128.27 t = true /\
       float_within 0 257.55 h = true).
Proof.
  intros c x log log' d Hd. split.
  - intros Hc. rewrite (call_check_sensors_A c x Hc) in Hd.
    apply fmap_VDict_inv in Hd. revert Hd.
    unfold rmpro.check_sensors, rmpro.temperature_of, bind, lift, ret.
    destruct (self__send c x 0x1 [] log) as [l [resp|e]]; [|discriminate].
    destruct (struct.unpack_bb (slice_to 0x2 resp)) as [t|e] eqn:Hu; [|discriminate].
    destruct (unpack_bb_inv _ _ Hu) as (b0 & b1 & ->).
    intros H. injection H as _ <-.
    eexists. split; [reflexivity|]. apply ranges.
  - intros Hc. rewrite (call_check_sensors_B c x Hc) in Hd.
    apply fmap_VDict_inv in Hd. revert Hd.
    unfold rm4mini.check_sensors, bind, lift, ret.
    destruct (self__send c x 0x24 [] log) as [l [resp|e]]; [|discriminate].
    destruct (struct.unpack_bb (slice_to 0x2 resp)) as [t|e] eqn:Hu; [|discriminate].
    destruct (unpack_bb_inv _ _ Hu) as (b0 & b1 & ->).
    destruct (index resp 0x2) as [r2|e]; [|discriminate].
    destruct (index resp 0x3) as [r3|e]; [|discriminate].
    intros H. injection H as _ <-.
    eexists. eexists. split; [reflexivity|]. cbn [fst snd].
    split; [apply (ranges b0 b1) | apply (ranges r2 r3)].
Qed.

Lemma sensor_value_ranges_witness :
  exists t h,
    [("temperature"%string, AFloat 25.02); ("humidity"%string, AFloat 60.05)]
      = [("temperature"%string, AFloat t); ("humidity"%string, AFloat h)] /\
    float_within (-129.28) 128.27 t = true /\
    float_within 0 257.55 h = true.
Proof.
  refine (proj2 (sensor_value_ranges Cls.rm4mini
                   (canned (raw sensors_extended_sample)) [] _ _ _) _).
  - vm_compute. reflexivity.
  - cbn [In]. tauto.
Defined.
